(** * ATEX zone calculator ([app.py]): embedding and verified properties

    The application is a Streamlit script.  Its numeric core is
    [get_zone_radius] (a step table over the dilution factor) and
    [calculate_zones] (multiplicative corrections, then rounding); the rest is
    glue around a process-held scenario list, a results loop and a PDF export
    through a temporary file.

    Python [float] is IEEE 754 binary64.  It is modelled by [spec_float] of
    the Standard Library at precision 53 and maximal exponent 1024, so that
    every product, quotient, comparison and rounding below is the one the
    interpreter performs, bit for bit. *)

From Stdlib Require Import ZArith Lia Bool List String SpecFloat.
From stdpp Require Import base option list strings.

Local Open Scope Z_scope.

(** ** Binary64 arithmetic *)

Module F.

Definition prec : Z := 53.
Definition emax : Z := 1024.

Abbreviation float := spec_float.

Definition mul : float -> float -> float := SFmul prec emax.
Definition div : float -> float -> float := SFdiv prec emax.
Definition leb : float -> float -> bool := SFleb.
Definition ltb : float -> float -> bool := SFltb.
Definition eqb : float -> float -> bool := SFeqb.

(** [float(z)] for an integer [z]; exact when [|z| <= 2^53]. *)
Definition of_Z (z : Z) : float := binary_normalize prec emax z 0 false.

(** The float denoted by the decimal literal with value [n / d]: the
    binary64 number nearest to it, ties to even.  Both [n] and [d] are
    below [2^53] in every use, so the correctly rounded quotient of the two
    exact integers is that number. *)
Definition dec (n : Z) (d : positive) : float := div (of_Z n) (of_Z (Zpos d)).

Definition inf : float := S754_infinity false.
Definition zero : float := S754_zero false.

(** Nearest integer to [num / den] ([den > 0]), ties to even. *)
Definition half_even (num den : Z) : Z :=
  let q := num / den in
  let r := num mod den in
  match 2 * r ?= den with
  | Lt => q
  | Gt => q + 1
  | Eq => if Z.even q then q else q + 1
  end.

(** [round(x, nd)] on a float, for [0 <= nd]: the exact binary value of [x]
    is rounded to [nd] decimal places, ties to even, and the decimal
    obtained is converted back to the nearest float (CPython's
    [double_round]: correctly rounded [dtoa] followed by correctly rounded
    [strtod]).  Zeros, infinities and NaN round to themselves; a value that
    rounds to nothing keeps its sign.  CPython raises [OverflowError] when
    the conversion back overflows; with [0 <= nd] a float that large is an
    integer and rounds to itself, so that exit is left out. *)
Definition round (x : float) (nd : Z) : float :=
  match x with
  | S754_finite s m e =>
      let scaled := half_even (Zpos m * 10 ^ nd * 2 ^ Z.max e 0) (2 ^ Z.max (- e) 0) in
      match scaled with
      | Zpos p => div (S754_finite s p 0) (S754_finite false (Z.to_pos (10 ^ nd)) 0)
      | _ => S754_zero s
      end
  | _ => x
  end.

End F.

Declare Scope float_scope.
Delimit Scope float_scope with F.
Bind Scope float_scope with spec_float.
Infix "*" := F.mul : float_scope.
Infix "/" := F.div : float_scope.
Infix "<=?" := F.leb : float_scope.
Infix "<?" := F.ltb : float_scope.
Infix "=?" := F.eqb : float_scope.

(** ** The literals of the program *)

Module Lit.
Definition f0_01 : F.float := Eval cbv in F.dec 1 100.
Definition f0_1 : F.float := Eval cbv in F.dec 1 10.
Definition f0_3 : F.float := Eval cbv in F.dec 3 10.
Definition f0_5 : F.float := Eval cbv in F.dec 5 10.
Definition f0_7 : F.float := Eval cbv in F.dec 7 10.
Definition f0_8 : F.float := Eval cbv in F.dec 8 10.
Definition f1_0 : F.float := Eval cbv in F.dec 1 1.
Definition f1_05 : F.float := Eval cbv in F.dec 105 100.
Definition f1_1 : F.float := Eval cbv in F.dec 11 10.
Definition f1_2 : F.float := Eval cbv in F.dec 12 10.
Definition f3_0 : F.float := Eval cbv in F.dec 3 1.
Definition f5_0 : F.float := Eval cbv in F.dec 5 1.
Definition f8_0 : F.float := Eval cbv in F.dec 8 1.
Definition f10_0 : F.float := Eval cbv in F.dec 10 1.
End Lit.

(** ** The step table and its lookup *)

(** A row of [ZONE_RADIUS_TABLE]: the dict literal [{"D_max": _, "radius": _}],
    only ever read at these two keys. *)
Record table_row := { D_max : F.float; radius : F.float }.

Definition ZONE_RADIUS_TABLE : list table_row :=
  [ {| D_max := Lit.f0_01; radius := Lit.f0_5 |};
    {| D_max := Lit.f0_1;  radius := Lit.f1_0 |};
    {| D_max := Lit.f1_0;  radius := Lit.f3_0 |};
    {| D_max := Lit.f10_0; radius := Lit.f5_0 |};
    {| D_max := F.inf;     radius := Lit.f8_0 |} ].

(** The [for row in ...: if D <= row["D_max"]: return row["radius"]] loop;
    [None] when the loop falls through. *)
Fixpoint scan_rows (D : F.float) (rows : list table_row) : option F.float :=
  match rows with
  | [] => None
  | row :: rest => if (D <=? D_max row)%F then Some (radius row) else scan_rows D rest
  end.

Definition get_zone_radius (D : F.float) : F.float :=
  match scan_rows D ZONE_RADIUS_TABLE with
  | Some r => r
  | None => Lit.f0_5 (* default *)
  end.


(** ** Python values, dicts and exceptions *)

(** The values the program stores in its dicts: [str], [float] and [int]. *)
Inductive value :=
| VStr (s : string)
| VFloat (x : F.float)
| VInt (n : Z).

(** A [dict] with [str] keys, in insertion order (keys are unique). *)
Abbreviation dict := (list (string * value)).

Fixpoint dict_get (d : dict) (k : string) : option value :=
  match d with
  | [] => None
  | (k', v) :: rest => if String.eqb k' k then Some v else dict_get rest k
  end.

(** [d[k] = v]: an existing key keeps its position, a new key goes last. *)
Fixpoint dict_set (d : dict) (k : string) (v : value) : dict :=
  match d with
  | [] => [(k, v)]
  | (k', v') :: rest =>
      if String.eqb k' k then (k', v) :: rest else (k', v') :: dict_set rest k v
  end.

(** [{**a, **b}]: the items of [b] are stored into a copy of [a], in order. *)
Definition dict_merge (a b : dict) : dict :=
  fold_left (fun acc kv => dict_set acc (fst kv) (snd kv)) b a.

(** A dict display [{k1: v1, ..., kn: vn}]. *)
Definition dict_display (items : list (string * value)) : dict :=
  dict_merge [] items.

Definition keys (d : dict) : list string := map fst d.

Inductive exn :=
| KeyError (k : string)
| TypeError
| ZeroDivisionError
| OverflowError         (* an int, or a quotient of ints, too large for a float *)
| IndexError            (* [.iloc[0]] on an empty selection *)
| OSError               (* tempfile, open, read, os.remove *)
| PdfError              (* raised inside the FPDF calls *)
| RerunException        (* [st.experimental_rerun()] stops the run *)
| InvalidAddress.       (* not a Python exception: no object at the address *)

Inductive outcome (A : Type) :=
| Ok (a : A)
| Raise (e : exn).
Arguments Ok {A} a.
Arguments Raise {A} e.

(** Sequencing of outcomes. *)
Definition and_then {A B} (o : outcome A) (k : A -> outcome B) : outcome B :=
  match o with
  | Ok a => k a
  | Raise e => Raise e
  end.

(** Numeric reading of a value; an [int] converts as [float(n)] does. *)
Definition to_float (v : value) : option F.float :=
  match v with
  | VFloat x => Some x
  | VInt n => Some (F.of_Z n)
  | VStr _ => None
  end.

(** A float that has to be finite: a conversion or a quotient of ints that
    leaves the range raises. *)
Definition finite_or_overflow (x : F.float) : outcome F.float :=
  match x with
  | S754_infinity _ => Raise OverflowError
  | _ => Ok x
  end.

(** An operand of float arithmetic: an [int] is converted first, and one too
    large for a float raises. *)
Definition operand (v : value) : outcome F.float :=
  match v with
  | VFloat x => Ok x
  | VInt n => finite_or_overflow (F.of_Z n)
  | VStr _ => Raise TypeError
  end.

(** The integer [n] itself, as a dividend or divisor. *)
Definition exact (n : Z) : F.float :=
  match n with
  | Z0 => S754_zero false
  | Zpos p => S754_finite false p 0
  | Zneg p => S754_finite true p 0
  end.

(** [v == 0] for a divisor. *)
Definition is_zero (v : value) : bool :=
  match v with
  | VInt n => n =? 0
  | VFloat y => (y =? F.zero)%F
  | VStr _ => false
  end.

(** [a / b]: true division.
    - Two ints: a zero divisor raises whatever the dividend; otherwise the
      result is the float nearest to the exact quotient (one rounding, ties
      to even), and a quotient too large for a float raises.
    - A float and a number: an [int] operand is converted first, which can
      raise; then a zero divisor raises whatever the dividend; otherwise the
      two floats are divided.  ([float(n)] is zero for [n = 0] only, so the
      divisor is tested as it stands.)
    - A [str] on either side is a [TypeError], before any conversion. *)
Definition py_truediv (a b : value) : outcome F.float :=
  match a, b with
  | VStr _, _ | _, VStr _ => Raise TypeError
  | VInt m, VInt n =>
      if n =? 0 then Raise ZeroDivisionError
      else finite_or_overflow (SFdiv F.prec F.emax (exact m) (exact n))
  | _, _ =>
      and_then (operand a) (fun x =>
      and_then (operand b) (fun y =>
      if is_zero b then Raise ZeroDivisionError else Ok (x / y)%F))
  end.

(** [a < b] where one side is a number: exact on two ints, the float
    comparison otherwise; a [str] against a number raises. *)
Definition py_lt (a b : value) : outcome bool :=
  match a, b with
  | VInt m, VInt n => Ok (m <? n)
  | _, _ =>
      match to_float a, to_float b with
      | Some x, Some y => Ok (x <? y)%F
      | _, _ => Raise TypeError
      end
  end.

(** [a > b] is [b < a]. *)
Definition py_gt (a b : value) : outcome bool := py_lt b a.

(** [a <= b] on numbers. *)
Definition py_le (a b : value) : outcome bool :=
  match a, b with
  | VInt m, VInt n => Ok (m <=? n)
  | _, _ =>
      match to_float a, to_float b with
      | Some x, Some y => Ok (x <=? y)%F
      | _, _ => Raise TypeError
      end
  end.

(** [a == b]: never raises; a [str] and a number are different. *)
Definition py_eq (a b : value) : bool :=
  match a, b with
  | VStr s, VStr t => String.eqb s t
  | VInt m, VInt n => m =? n
  | VStr _, _ | _, VStr _ => false
  | _, _ =>
      match to_float a, to_float b with
      | Some x, Some y => (x =? y)%F
      | _, _ => false
      end
  end.

(** [round(v, nd)] for [0 <= nd]: an [int] is returned as it is. *)
Definition py_round (v : value) (nd : Z) : outcome value :=
  match v with
  | VFloat x => Ok (VFloat (F.round x nd))
  | VInt n => Ok (VInt n)
  | VStr _ => Raise TypeError
  end.

(** ** The world of a script run *)

(** What the user sees. *)
Inductive event :=
| EvSuccess (msg : string)           (* [st.success] *)
| EvDataframe (df : list dict)       (* [st.dataframe] *)
| EvPlot (zone0 zone1 zone2 : value) (* [plot_zones] *)
| EvDownload (path : string).        (* [st.download_button] fed from the file *)

(** Dict objects live in [heap], addressed by position, so that a row handed
    to a function is the very object the session list holds.
    [session_scenarios] is [st.session_state["scenarios"]], [files] the
    temporary files on disk, [ui] what has been emitted so far.  [calls] is
    ghost state: the rows [calculate_zones] has been called with. *)
Record world := World {
  heap : list dict;
  session_scenarios : list nat;
  files : list string;
  ui : list event;
  calls : list nat
}.

Definition initial_world : world :=
  {| heap := []; session_scenarios := []; files := []; ui := []; calls := [] |}.

(** State and exception monad: an exception keeps the state reached. *)
Definition M (A : Type) : Type := world -> outcome A * world.

Definition ret {A} (a : A) : M A := fun w => (Ok a, w).

Definition raise {A} (e : exn) : M A := fun w => (Raise e, w).

Definition bind {A B} (m : M A) (k : A -> M B) : M B :=
  fun w =>
    match m w with
    | (Ok a, w') => k a w'
    | (Raise e, w') => (Raise e, w')
    end.

Definition lift {A} (o : outcome A) : M A := fun w => (o, w).

Notation "'let*' x ':=' m 'in' k" := (bind m (fun x => k))
  (at level 10, x name, m at level 100, k at level 200).
Notation "m ';;' k" := (bind m (fun _ => k))
  (at level 100, k at level 200, right associativity).

(** [row[k]] through a reference. *)
Definition getitem (a : nat) (k : string) : M value :=
  fun w =>
    match heap w !! a with
    | Some d =>
        match dict_get d k with
        | Some v => (Ok v, w)
        | None => (Raise (KeyError k), w)
        end
    | None => (Raise InvalidAddress, w)
    end.

(** The whole dict behind a reference (for [**row]). *)
Definition deref (a : nat) : M dict :=
  fun w =>
    match heap w !! a with
    | Some d => (Ok d, w)
    | None => (Raise InvalidAddress, w)
    end.

(** A new dict object. *)
Definition alloc (d : dict) : M nat :=
  fun w =>
    (Ok (length (heap w)),
     {| heap := heap w ++ [d]; session_scenarios := session_scenarios w;
        files := files w; ui := ui w; calls := calls w |}).

Definition get_scenarios : M (list nat) := fun w => (Ok (session_scenarios w), w).

Definition set_scenarios (l : list nat) : M unit :=
  fun w =>
    (Ok tt,
     {| heap := heap w; session_scenarios := l;
        files := files w; ui := ui w; calls := calls w |}).

Definition emit (e : event) : M unit :=
  fun w =>
    (Ok tt,
     {| heap := heap w; session_scenarios := session_scenarios w;
        files := files w; ui := ui w ++ [e]; calls := calls w |}).

Definition create_file (p : string) : M unit :=
  fun w =>
    (Ok tt,
     {| heap := heap w; session_scenarios := session_scenarios w;
        files := p :: files w; ui := ui w; calls := calls w |}).

(** [os.remove(p)]: the file must exist. *)
Definition remove_file (p : string) : M unit :=
  fun w =>
    if existsb (String.eqb p) (files w) then
      (Ok tt,
       {| heap := heap w; session_scenarios := session_scenarios w;
          files := filter (fun q => negb (String.eqb p q)) (files w);
          ui := ui w; calls := calls w |})
    else (Raise OSError, w).

(** Ghost: records that the calculator is about to be called on [row]. *)
Definition note_call (row : nat) : M unit :=
  fun w =>
    (Ok tt,
     {| heap := heap w; session_scenarios := session_scenarios w;
        files := files w; ui := ui w; calls := calls w ++ [row] |}).

(** ** The scenario form and the gas table *)

(** The values of the widgets of [scenario_form] in one run. *)
Record form := {
  gaz_adi : string;
  leak_type : string;
  leak_rate : F.float;
  leak_duration : F.float;
  ventilation_rate : F.float;
  ventilation_type : string;
  volume : F.float;
  temp : F.float;
  pressure : F.float;
  scenario_name : string;
  notes : string
}.

(** Modelled from the spec: [gazlar.csv] is not in the repository.  A row has
    the columns [isim] (name), [grup] (group) and [LEL] (a float, volume %).
    The table itself is a parameter of everything that reads it. *)
Record gas_row := { isim : string; grup : string; LEL : F.float }.

(** [gazlar[gazlar["isim"] == gaz_adi].iloc[0]]: the first row with that
    name; [.iloc[0]] raises on an empty selection. *)
Definition lookup_gas (gazlar : list gas_row) (name : string) : outcome gas_row :=
  match filter (fun g => String.eqb (isim g) name) gazlar with
  | gaz :: _ => Ok gaz
  | [] => Raise IndexError
  end.

(** The dict display appended by the submit handler. *)
Definition scenario_dict (f : form) (gaz : gas_row) : dict :=
  dict_display
    [ ("Senaryo", VStr (scenario_name f));
      ("Gaz", VStr (gaz_adi f));
      ("Grup", VStr (grup gaz));
      ("LEL", VFloat (LEL gaz));
      ("Kaçak Tipi", VStr (leak_type f));
      ("Kaçak Debisi", VFloat (leak_rate f));
      ("Kaçak Süresi", VFloat (leak_duration f));
      ("Havalandırma Debisi", VFloat (ventilation_rate f));
      ("Havalandırma Tipi", VStr (ventilation_type f));
      ("Hacim", VFloat (volume f));
      ("Sıcaklık", VFloat (temp f));
      ("Basınç", VFloat (pressure f));
      ("Not", VStr (notes f)) ]%string.

(** [if submit: ...] *)
Definition submit_handler (gazlar : list gas_row) (f : form) : M unit :=
  let* gaz := lift (lookup_gas gazlar (gaz_adi f)) in
  let* a := alloc (scenario_dict f gaz) in
  let* l := get_scenarios in
  set_scenarios (l ++ [a]) ;;
  emit (EvSuccess (scenario_name f ++ " eklendi!")%string).

(** ** The calculator *)

Definition calculate_zones (row : nat) : M nat :=
  let* kt := getitem row "Kaçak Tipi" in
  let zone0 := py_eq kt (VStr "Sürekli") in
  let* lr := getitem row "Kaçak Debisi" in
  let* vr := getitem row "Havalandırma Debisi" in
  let* D := lift (py_truediv lr vr) in
  let base_radius := get_zone_radius D in
  let* g := getitem row "Grup" in
  let* base_radius :=
    if py_eq g (VStr "IIC") then ret (base_radius * Lit.f1_2)%F
    else
      let* g' := getitem row "Grup" in
      ret (if py_eq g' (VStr "IIB") then (base_radius * Lit.f1_1)%F else base_radius) in
  let* lel := getitem row "LEL" in
  let* c := lift (py_lt lel (VInt 2)) in
  let base_radius := if c then (base_radius * Lit.f1_1)%F else base_radius in
  let* hacim := getitem row "Hacim" in
  let* c := lift (py_lt hacim (VInt 10)) in
  let base_radius := if c then (base_radius * Lit.f0_8)%F else base_radius in
  let* sicaklik := getitem row "Sıcaklık" in
  let* c := lift (py_gt sicaklik (VInt 40)) in
  let base_radius := if c then (base_radius * Lit.f1_05)%F else base_radius in
  let* basinc := getitem row "Basınç" in
  let* c := lift (py_gt basinc (VFloat Lit.f1_2)) in
  let base_radius := if c then (base_radius * Lit.f1_1)%F else base_radius in
  let zone0_radius := if zone0 then VFloat (base_radius * Lit.f0_3)%F else VInt 0 in
  let zone1_radius :=
    if negb zone0 then (base_radius * Lit.f0_7)%F else (base_radius * Lit.f0_7)%F in
  let zone2_radius := base_radius in
  let* r0 := lift (py_round zone0_radius 2) in
  let* r1 := lift (py_round (VFloat zone1_radius) 2) in
  let* r2 := lift (py_round (VFloat zone2_radius) 2) in
  let* rD := lift (py_round (VFloat D) 4) in
  alloc (dict_display
           [ ("Zone 0 Yarıçapı (m)", r0);
             ("Zone 1 Yarıçapı (m)", r1);
             ("Zone 2 Yarıçapı (m)", r2);
             ("Seyrelme Faktörü (D)", rD) ]%string).

(** ** Results, diagram and report *)

(** [for row in scenarios: res = calculate_zones(row);
    results.append({**row, **res})], over the rows the list holds when the
    loop starts (the body does not touch the list). *)
Fixpoint results_loop (rows : list nat) (results : list nat) : M (list nat) :=
  match rows with
  | [] => ret results
  | row :: rest =>
      note_call row ;;
      let* res := calculate_zones row in
      let* drow := deref row in
      let* dres := deref res in
      let* merged := alloc (dict_merge drow dres) in
      results_loop rest (results ++ [merged])
  end.

(** *** Frames

    A frame is kept as the list of its rows, each a dict over the columns of
    the frame.  What pandas does to the values is modelled for the values the
    program stores: strings, floats and ints within 64 bits (the only int a
    record of the program holds is the [0] of zone 0). *)

(** The type of a column or of a row: [int64], [float64] or [object]. *)
Inductive dtype := DInt | DFloat | DObject.

(** The type an entry asks for; a missing entry is NaN, a float. *)
Definition value_dtype (o : option value) : dtype :=
  match o with
  | Some (VInt _) => DInt
  | Some (VFloat _) | None => DFloat
  | Some (VStr _) => DObject
  end.

(** The common type: [object] as soon as a string is involved, [float64]
    for ints and floats together. *)
Definition common (a b : dtype) : dtype :=
  match a, b with
  | DObject, _ | _, DObject => DObject
  | DFloat, _ | _, DFloat => DFloat
  | DInt, DInt => DInt
  end.

Definition column_dtype (records : list dict) (k : string) : dtype :=
  fold_right (fun d t => common (value_dtype (dict_get d k)) t) DInt records.

(** A value stored under a type: an int in a [float64] column or row becomes
    the float [float(n)]; nothing else changes. *)
Definition cast (t : dtype) (v : value) : value :=
  match v with
  | VInt n =>
      match t with
      | DFloat => VFloat (F.of_Z n)
      | _ => v
      end
  | _ => v
  end.

Definition add_key (acc : list string) (k : string) : list string :=
  if existsb (String.eqb k) acc then acc else acc ++ [k].

(** [df.columns] of a frame built from a list of dicts: the keys of the
    records in the order of their first appearance. *)
Definition columns (df : list dict) : list string :=
  fold_left (fun acc d => fold_left add_key (keys d) acc) df [].

(** [row[col]] in the frame: the value of the record, NaN for a record that
    lacks the column. *)
Definition frame_entry (row : dict) (col : string) : value :=
  match dict_get row col with
  | Some v => v
  | None => VFloat S754_nan
  end.

(** The frame of a list of records: every row gets every column, and every
    column the common type of its entries. *)
Definition frame_of (records : list dict) : list dict :=
  map (fun d =>
         map (fun k => (k, cast (column_dtype records k) (frame_entry d k)))
           (columns records))
    records.

(** The dicts behind the references, in order. *)
Fixpoint records_of (results : list nat) : M (list dict) :=
  match results with
  | [] => ret []
  | a :: rest =>
      let* d := deref a in
      let* ds := records_of rest in
      ret (d :: ds)
  end.

(** [pd.DataFrame(results)] copies the records into a frame. *)
Definition DataFrame (results : list nat) : M (list dict) :=
  let* records := records_of results in
  ret (frame_of records).

(** The type of a row taken out of the frame: the common type of the
    columns. *)
Definition row_dtype (df : list dict) : dtype :=
  fold_right (fun k t => common (column_dtype df k) t) DInt (columns df).

(** A row as a Series, which has one type for all its entries. *)
Definition series (df : list dict) (d : dict) : dict :=
  map (fun kv => (fst kv, cast (row_dtype df) (snd kv))) d.

(** [df.iloc[i]] *)
Definition iloc (df : list dict) (i : nat) : outcome dict :=
  match df !! i with
  | Some d => Ok (series df d)
  | None => Raise IndexError
  end.

(** The rows of [df.iterrows()], in order. *)
Definition iterrows (df : list dict) : list dict := map (series df) df.

(** [series[k]] *)
Definition column (d : dict) (k : string) : M value :=
  match dict_get d k with
  | Some v => ret v
  | None => raise (KeyError k)
  end.

(** The diagram is an output; how it is drawn is not modelled. *)
Definition plot_zones (zone0 zone1 zone2 : value) : M unit :=
  emit (EvPlot zone0 zone1 zone2).

(** The stages of the PDF download at which a collaborator can fail. *)
Inductive pdf_stage :=
| AtRender      (* building the document: [FPDF()], [cell], ... *)
| AtTempfile    (* [tempfile.NamedTemporaryFile] *)
| AtOutput      (* [pdf.output(tmp.name)] *)
| AtOpen        (* [open(pdf_path, "rb")] *)
| AtRead.       (* [st.download_button] reading the file *)

Definition pdf_stage_eqb (a b : pdf_stage) : bool :=
  match a, b with
  | AtRender, AtRender | AtTempfile, AtTempfile | AtOutput, AtOutput
  | AtOpen, AtOpen | AtRead, AtRead => true
  | _, _ => false
  end.

(** What the run gets from outside: the name [tempfile] picks and the stage,
    if any, at which a collaborator raises. *)
Record environment := { tmp_name : string; fail_at : option pdf_stage }.

Definition external (env : environment) (st : pdf_stage) (e : exn) : M unit :=
  match fail_at env with
  | Some st' => if pdf_stage_eqb st st' then raise e else ret tt
  | None => ret tt
  end.

Definition create_pdf_report (env : environment) (df : list dict) : M string :=
  external env AtRender PdfError ;;
  external env AtTempfile OSError ;;
  create_file (tmp_name env) ;;
  external env AtOutput PdfError ;;
  ret (tmp_name env).

(** [if st.button("PDF Raporu İndir"): ...].  Leaving the [with] block closes
    the file object on both exits and lets an exception through. *)
Definition pdf_button_handler (env : environment) (df : list dict) : M unit :=
  let* pdf_path := create_pdf_report env df in
  external env AtOpen OSError ;;
  external env AtRead OSError ;;
  emit (EvDownload pdf_path) ;;
  remove_file pdf_path.

(** ** One run of the script *)

Record inputs := {
  widgets : form;
  submit : bool;
  pdf_button : bool;
  clear_button : bool;
  env : environment
}.

(** What follows the results loop: the table, the diagram of the first
    scenario and the two buttons. *)
Definition present (inp : inputs) (results : list nat) : M unit :=
  let* df := DataFrame results in
  emit (EvDataframe df) ;;
  let* first := lift (iloc df 0) in
  let* z0 := column first "Zone 0 Yarıçapı (m)" in
  let* z1 := column first "Zone 1 Yarıçapı (m)" in
  let* z2 := column first "Zone 2 Yarıçapı (m)" in
  plot_zones z0 z1 z2 ;;
  (if pdf_button inp then pdf_button_handler (env inp) df else ret tt) ;;
  (if clear_button inp then set_scenarios [] ;; raise RerunException else ret tt).

(** [if st.session_state["scenarios"]: ...] *)
Definition results_section (inp : inputs) : M unit :=
  let* scenarios := get_scenarios in
  match scenarios with
  | [] => ret tt
  | _ :: _ =>
      let* results := results_loop scenarios [] in
      present inp results
  end.

(** The script, top to bottom.  The session list starts empty
    ([initial_world]); the table of gases is loaded once and only read. *)
Definition script (gazlar : list gas_row) (inp : inputs) : M unit :=
  (if submit inp then submit_handler gazlar (widgets inp) else ret tt) ;;
  results_section inp.

(** ** Specification-side definitions *)

(** Each element is strictly below the next. *)
Fixpoint ascending (l : list F.float) : bool :=
  match l with
  | x :: (y :: _) as rest => (x <? y)%F && ascending rest
  | _ => true
  end.

(** The dilution factor of a scenario. *)
Definition dilution (f : form) : F.float := (leak_rate f / ventilation_rate f)%F.

(** The multiplicative corrections, one flag per condition of the source. *)
Definition correct (base : F.float) (iic iib lel_low small hot high_p : bool) : F.float :=
  let r := if iic then (base * Lit.f1_2)%F else if iib then (base * Lit.f1_1)%F else base in
  let r := if lel_low then (r * Lit.f1_1)%F else r in
  let r := if small then (r * Lit.f0_8)%F else r in
  let r := if hot then (r * Lit.f1_05)%F else r in
  if high_p then (r * Lit.f1_1)%F else r.

(** [R]: the base radius after every correction.  The leak type is not among
    its inputs. *)
Definition corrected_radius (f : form) (gaz : gas_row) : F.float :=
  correct (get_zone_radius (dilution f))
    (String.eqb (grup gaz) "IIC") (String.eqb (grup gaz) "IIB")
    (LEL gaz <? F.of_Z 2)%F
    (volume f <? F.of_Z 10)%F
    (F.of_Z 40 <? temp f)%F
    (Lit.f1_2 <? pressure f)%F.

(** The four result fields for a scenario, as [calculate_zones] returns them. *)
Definition zone_result (f : form) (gaz : gas_row) : dict :=
  let R := corrected_radius f gaz in
  [ ("Zone 0 Yarıçapı (m)",
     if String.eqb (leak_type f) "Sürekli"
     then VFloat (F.round (R * Lit.f0_3)%F 2) else VInt 0);
    ("Zone 1 Yarıçapı (m)", VFloat (F.round (R * Lit.f0_7)%F 2));
    ("Zone 2 Yarıçapı (m)", VFloat (F.round R 2));
    ("Seyrelme Faktörü (D)", VFloat (F.round (dilution f) 4)) ]%string.

(** The result fields of a scenario as a frame holds them.  The column of
    zone 0 is a column of floats as soon as one record has a float there, and
    then the int [0] of the other records is the float [0.0]. *)
Definition zone_result_in_frame (float_column : bool) (f : form) (gaz : gas_row) : dict :=
  let R := corrected_radius f gaz in
  [ ("Zone 0 Yarıçapı (m)",
     if String.eqb (leak_type f) "Sürekli"
     then VFloat (F.round (R * Lit.f0_3)%F 2)
     else if float_column then VFloat F.zero else VInt 0);
    ("Zone 1 Yarıçapı (m)", VFloat (F.round (R * Lit.f0_7)%F 2));
    ("Zone 2 Yarıçapı (m)", VFloat (F.round R 2));
    ("Seyrelme Faktörü (D)", VFloat (F.round (dilution f) 4)) ]%string.

(** The record built for a scenario: its fields, then the result fields. *)
Definition record_of (f : form) (gaz : gas_row) : dict :=
  scenario_dict f gaz ++ zone_result f gaz.

(** The record of a scenario as a row of a frame. *)
Definition frame_record (d : dict) : Prop :=
  exists float_column f gaz,
    d = scenario_dict f gaz ++ zone_result_in_frame float_column f gaz.

(** The columns of a frame of scenario records. *)
Definition record_columns_list : list string :=
  [ "Senaryo"; "Gaz"; "Grup"; "LEL"; "Kaçak Tipi"; "Kaçak Debisi";
    "Kaçak Süresi"; "Havalandırma Debisi"; "Havalandırma Tipi"; "Hacim";
    "Sıcaklık"; "Basınç"; "Not"; "Zone 0 Yarıçapı (m)"; "Zone 1 Yarıçapı (m)";
    "Zone 2 Yarıçapı (m)"; "Seyrelme Faktörü (D)" ]%string.

(** The leak type of the row is "Sürekli": its zone 0 radius is a float. *)
Definition is_continuous (d : dict) : bool :=
  match dict_get d "Kaçak Tipi" with
  | Some v => py_eq v (VStr "Sürekli")
  | None => false
  end.

Definition continuous_at (w : world) (a : nat) : bool :=
  match heap w !! a with
  | Some d => is_continuous d
  | None => false
  end.

(** One of the rows is continuous, so that the zone 0 column of their frame
    is a column of floats. *)
Definition float_zone0 (w : world) (rows : list nat) : bool :=
  existsb (continuous_at w) rows.

(** The contract of the data model: every quantity that must be positive is. *)
Definition valid_scenario (f : form) (gaz : gas_row) : bool :=
  (F.zero <? leak_rate f)%F && (F.zero <? leak_duration f)%F
  && (F.zero <? ventilation_rate f)%F && (F.zero <? volume f)%F
  && (F.zero <? pressure f)%F && (F.zero <? LEL gaz)%F.

(** What the [st.number_input] widgets guarantee ([min_value], [max_value]). *)
Definition form_in_range (f : form) : bool :=
  (Lit.f0_01 <=? leak_rate f)%F && (leak_rate f <=? F.of_Z 1000)%F
  && (Lit.f0_01 <=? leak_duration f)%F && (leak_duration f <=? F.of_Z 24)%F
  && (Lit.f0_01 <=? ventilation_rate f)%F && (ventilation_rate f <=? F.of_Z 10000)%F
  && (Lit.f0_1 <=? volume f)%F && (volume f <=? F.of_Z 10000)%F
  && (F.of_Z (-40) <=? temp f)%F && (temp f <=? F.of_Z 80)%F
  && (Lit.f0_8 <=? pressure f)%F && (pressure f <=? F.of_Z 2)%F.

(** [a <= b] holds, as Python decides it. *)
Definition value_leb (a b : value) : bool :=
  match py_le a b with
  | Ok c => c
  | Raise _ => false
  end.

(** The worlds the script can be in: it starts from nothing and every run is
    fed widget values within their ranges. *)
Inductive reachable (gazlar : list gas_row) : world -> Prop :=
| reach_init : reachable gazlar initial_world
| reach_run (w : world) (inp : inputs) :
    reachable gazlar w ->
    form_in_range (widgets inp) = true ->
    reachable gazlar (snd (script gazlar inp w)).

(** The row at address [a] is a scenario built by the submit handler from a
    gas of the table, with a ventilation rate that is not zero. *)
Definition scenario_at (gazlar : list gas_row) (w : world) (a : nat) : Prop :=
  exists f gaz,
    heap w !! a = Some (scenario_dict f gaz)
    /\ In gaz gazlar /\ isim gaz = gaz_adi f
    /\ (ventilation_rate f =? F.zero)%F = false.

(** Every object of [w] is still there, unchanged, in [w']. *)
Definition heap_kept (w w' : world) : Prop :=
  exists new, heap w' = heap w ++ new.

(** A key that orders the non-NaN floats as [SFcompare] does: the sign class
    first, then exponent and mantissa. *)
Definition rank (x : F.float) : option (Z * Z * Z) :=
  match x with
  | S754_nan => None
  | S754_infinity true => Some (-2, 0, 0)
  | S754_finite true m e => Some (-1, - e, - Zpos m)
  | S754_zero _ => Some (0, 0, 0)
  | S754_finite false m e => Some (1, e, Zpos m)
  | S754_infinity false => Some (2, 0, 0)
  end.

Definition lex_le (a b : Z * Z * Z) : Prop :=
  let '(a1, a2, a3) := a in
  let '(b1, b2, b3) := b in
  a1 < b1 \/ (a1 = b1 /\ (a2 < b2 \/ (a2 = b2 /\ a3 <= b3))).

(** The same form with another leak type. *)
Definition with_leak_type (t : string) (f : form) : form :=
  {| gaz_adi := gaz_adi f; leak_type := t; leak_rate := leak_rate f;
     leak_duration := leak_duration f; ventilation_rate := ventilation_rate f;
     ventilation_type := ventilation_type f; volume := volume f; temp := temp f;
     pressure := pressure f; scenario_name := scenario_name f; notes := notes f |}.

(** The same form with another gas selected. *)
Definition with_gas (name : string) (f : form) : form :=
  {| gaz_adi := name; leak_type := leak_type f; leak_rate := leak_rate f;
     leak_duration := leak_duration f; ventilation_rate := ventilation_rate f;
     ventilation_type := ventilation_type f; volume := volume f; temp := temp f;
     pressure := pressure f; scenario_name := scenario_name f; notes := notes f |}.

(** The three rounded radii for a corrected radius [R]: are they nested? *)
Definition nested (R : F.float) (continuous : bool) : bool :=
  let z0 := if continuous then VFloat (F.round (R * Lit.f0_3)%F 2) else VInt 0 in
  let z1 := VFloat (F.round (R * Lit.f0_7)%F 2) in
  let z2 := VFloat (F.round R 2) in
  value_leb z0 z1 && value_leb z1 z2.

(** [m] changes nothing and its outcome depends on the world through the
    dict at [row] only. *)
Definition reads_only (row : nat) {A} (m : M A) : Prop :=
  forall w, exists o,
    m w = (o, w)
    /\ forall w', heap w' !! row = heap w !! row -> m w' = (o, w').

(** [m] either raises, changing nothing, or allocates one dict and returns
    its address; which of the two, and the dict, depend on the world through
    the dict at [row] only. *)
Definition allocates (row : nat) (m : M nat) : Prop :=
  forall w,
    (exists e, m w = (Raise e, w)
       /\ forall w', heap w' !! row = heap w !! row -> m w' = (Raise e, w'))
    \/ (exists d, m w = alloc d w
       /\ forall w', heap w' !! row = heap w !! row -> m w' = alloc d w').

(** From [w] to [w'] no object and no call record changed, and the session
    list is the same or has been cleared. *)
Definition quiet (w w' : world) : Prop :=
  heap w' = heap w
  /\ calls w' = calls w
  /\ (session_scenarios w' = session_scenarios w \/ session_scenarios w' = []).

Definition keeps_objects {A} (m : M A) : Prop :=
  forall w, quiet w (snd (m w)).

(** Every stored row, and every row the calculator has been called with, is
    a scenario of a gas of the table with a non-zero ventilation rate. *)
Definition session_ok (gazlar : list gas_row) (w : world) : Prop :=
  (forall a, In a (session_scenarios w) -> scenario_at gazlar w a)
  /\ (forall a, In a (calls w) -> scenario_at gazlar w a).

(** The widget values and the table used in the examples below. *)
Definition sample_form : form :=
  {| gaz_adi := "Metan"; leak_type := "Sürekli";
     leak_rate := F.of_Z 10; leak_duration := F.of_Z 1;
     ventilation_rate := F.of_Z 100; ventilation_type := "Doğal";
     volume := F.of_Z 100; temp := F.of_Z 20; pressure := Lit.f1_0;
     scenario_name := "Senaryo 1"; notes := EmptyString |}%string.

Definition sample_gas : gas_row :=
  {| isim := "Metan"; grup := "IIA"; LEL := F.of_Z 5 |}%string.

Definition sample_gazlar : list gas_row :=
  [ sample_gas; {| isim := "Hidrojen"; grup := "IIC"; LEL := F.of_Z 4 |} ]%string.

Definition sample_inputs (submit pdf clear : bool) (fault : option pdf_stage) : inputs :=
  {| widgets := sample_form; submit := submit; pdf_button := pdf;
     clear_button := clear;
     env := {| tmp_name := "/tmp/tmpk3x1.pdf"; fail_at := fault |} |}%string.

(** The world after one scenario has been submitted. *)
Definition sample_world : world :=
  snd (script sample_gazlar (sample_inputs true false false None) initial_world).

(** A world holding one scenario row and nothing else. *)
Definition one_row (d : dict) : world :=
  {| heap := [d]; session_scenarios := [0%nat]; files := []; ui := []; calls := [] |}.


(** ** Definitions for the further properties *)

(** The radius of every row is a number and is not above the radius of any
    later row. *)
Fixpoint radii_ascend (rows : list table_row) : bool :=
  match rows with
  | [] => true
  | row :: rest =>
      (radius row <=? radius row)%F
      && forallb (fun row' => (radius row <=? radius row')%F) rest
      && radii_ascend rest
  end.

(** The rounded radii for a corrected radius [R] stay within the bounds the
    table and the correction factors allow. *)
Definition within_bounds (R : F.float) : bool :=
  let z0 := F.round (R * Lit.f0_3)%F 2 in
  let z1 := F.round (R * Lit.f0_7)%F 2 in
  let z2 := F.round R 2 in
  (F.dec 12 100 <=? z0)%F && (z0 <=? F.dec 366 100)%F
  && (F.dec 28 100 <=? z1)%F && (z1 <=? F.dec 854 100)%F
  && (F.dec 40 100 <=? z2)%F && (z2 <=? F.dec 122 10)%F.

(** The three rounded radii for [R1] are not above those for [R2]. *)
Definition radii_leb (R1 R2 : F.float) : bool :=
  (F.round (R1 * Lit.f0_3)%F 2 <=? F.round (R2 * Lit.f0_3)%F 2)%F
  && (F.round (R1 * Lit.f0_7)%F 2 <=? F.round (R2 * Lit.f0_7)%F 2)%F
  && (F.round R1 2 <=? F.round R2 2)%F.

(** The fields [calculate_zones] reads, in the order of their first read,
    and those among them it uses as numbers. *)
Definition read_keys : list string :=
  [ "Kaçak Tipi"; "Kaçak Debisi"; "Havalandırma Debisi"; "Grup"; "LEL";
    "Hacim"; "Sıcaklık"; "Basınç" ]%string.

Definition numeric_keys : list string :=
  [ "Kaçak Debisi"; "Havalandırma Debisi"; "LEL"; "Hacim"; "Sıcaklık";
    "Basınç" ]%string.

Definition is_number (v : value) : bool :=
  match v with
  | VStr _ => false
  | _ => true
  end.

(** An int too large to be converted to a float. *)
Definition too_large (v : value) : bool :=
  match v with
  | VInt n =>
      match F.of_Z n with
      | S754_infinity _ => true
      | _ => false
      end
  | _ => false
  end.

(** The division of the numbers [a] and [b] leaves the range of floats: the
    quotient of two ints does, or an int that has to be converted does. *)
Definition quotient_overflows (a b : value) : bool :=
  match a, b with
  | VInt m, VInt n =>
      match SFdiv F.prec F.emax (exact m) (exact n) with
      | S754_infinity _ => true
      | _ => false
      end
  | _, _ => too_large a || too_large b
  end.

(** The row has every field that is read, a number in every field that is
    used as one, a ventilation rate that is not 0 and two rates whose
    division stays within the floats. *)
Definition row_complete (d : dict) : bool :=
  forallb (fun k => match dict_get d k with Some _ => true | None => false end)
    read_keys
  && forallb (fun k => match dict_get d k with Some v => is_number v | None => false end)
       numeric_keys
  && match dict_get d "Kaçak Debisi", dict_get d "Havalandırma Debisi" with
     | Some a, Some b => negb (is_zero b) && negb (quotient_overflows a b)
     | _, _ => false
     end.

(** What in the row makes the calculator raise [e]. *)
Definition error_cause (d : dict) (e : exn) : Prop :=
  (exists k, e = KeyError k /\ In k read_keys /\ dict_get d k = None)
  \/ (e = TypeError
      /\ exists k s, In k numeric_keys /\ dict_get d k = Some (VStr s))
  \/ (e = ZeroDivisionError
      /\ exists b, dict_get d "Havalandırma Debisi" = Some b
                   /\ is_number b = true /\ is_zero b = true)
  \/ (e = OverflowError
      /\ exists a b, dict_get d "Kaçak Debisi" = Some a
                     /\ dict_get d "Havalandırma Debisi" = Some b
                     /\ is_number a = true /\ is_number b = true
                     /\ quotient_overflows a b = true).

(** A result dict: the four keys in order, floats for zone 1, zone 2 and D,
    a float or the integer 0 for zone 0. *)
Definition result_shaped (d : dict) : Prop :=
  exists z0 z1 z2 D,
    d = [ ("Zone 0 Yarıçapı (m)", z0);
          ("Zone 1 Yarıçapı (m)", VFloat z1);
          ("Zone 2 Yarıçapı (m)", VFloat z2);
          ("Seyrelme Faktörü (D)", VFloat D) ]%string
    /\ (z0 = VInt 0 \/ exists x, z0 = VFloat x).

(** The two ways a call on the row [d0] can end in the world [w]. *)
Definition call_outcome (d0 : dict) (w : world) (r : outcome nat * world) : Prop :=
  (exists e, error_cause d0 e /\ r = (Raise e, w))
  \/ (exists d, result_shaped d /\ row_complete d0 = true /\ r = alloc d w).

(** What a step may do to the world: every object is kept; the files are the
    same unless [files_free]; the session list is the same, or has been
    cleared when [may_clear]. *)
Definition run_rel (files_free may_clear : bool) (w w' : world) : Prop :=
  heap_kept w w'
  /\ (files_free = false -> files w' = files w)
  /\ (session_scenarios w' = session_scenarios w
      \/ (may_clear = true /\ session_scenarios w' = [])).

(** [m] takes every world to one related to it by [R], whatever its outcome. *)
Definition preserves (R : world -> world -> Prop) {A} (m : M A) : Prop :=
  forall w, R w (snd (m w)).

(** The world after the submit handler has stored the form [f] with the gas
    row [gaz]. *)
Definition submitted (f : form) (gaz : gas_row) (w : world) : world :=
  {| heap := heap w ++ [scenario_dict f gaz];
     session_scenarios := session_scenarios w ++ [length (heap w)];
     files := files w;
     ui := ui w ++ [EvSuccess (scenario_name f ++ " eklendi!")%string];
     calls := calls w |}.

(** The world after [present] has shown the frame [df] and the diagram of
    the radii [z0], [z1], [z2], with no PDF requested. *)
Definition shown (df : list dict) (z0 z1 z2 : value) (clear : bool) (w : world) : world :=
  {| heap := heap w;
     session_scenarios := if clear then [] else session_scenarios w;
     files := files w;
     ui := ui w ++ [EvDataframe df; EvPlot z0 z1 z2];
     calls := calls w |}.

(** *** The diagram *)

(** [a + b], [a - b] and [- a] where the operands are numbers, as in
    [zone2 + 1] and [-zone2 - 1]: integer arithmetic on ints, float
    arithmetic as soon as one side is a float; a [str] raises. *)
Definition py_add (a b : value) : outcome value :=
  match a, b with
  | VInt m, VInt n => Ok (VInt (m + n))
  | _, _ =>
      match to_float a, to_float b with
      | Some x, Some y => Ok (VFloat (SFadd F.prec F.emax x y))
      | _, _ => Raise TypeError
      end
  end.

Definition py_sub (a b : value) : outcome value :=
  match a, b with
  | VInt m, VInt n => Ok (VInt (m - n))
  | _, _ =>
      match to_float a, to_float b with
      | Some x, Some y => Ok (VFloat (SFsub F.prec F.emax x y))
      | _, _ => Raise TypeError
      end
  end.

Definition py_neg (a : value) : outcome value :=
  match a with
  | VInt n => Ok (VInt (- n))
  | VFloat x => Ok (VFloat (SFopp x))
  | VStr _ => Raise TypeError
  end.

(** [plt.Circle((0,0), r, color=color, alpha=0.3, label=label)]: the centre
    and the opacity are the same for every circle. *)
Record circle := { circle_radius : value; circle_color : string; circle_label : string }.

(** What [plot_zones] has put on the axes when it hands the figure over: the
    circles in the order they were added, and the two axis ranges.  Aspect,
    legend, title and axis labels are constants of the source. *)
Record figure := {
  artists : list circle;
  xlim : value * value;
  ylim : value * value
}.

(** The [for r, color, label in zip(...)] loop: a circle is added when
    [r > 0]. *)
Fixpoint add_circles (items : list (value * string * string)) (drawn : list circle)
  : outcome (list circle) :=
  match items with
  | [] => Ok drawn
  | (r, color, label) :: rest =>
      and_then (py_gt r (VInt 0)) (fun positive =>
        if positive
        then add_circles rest
               (drawn ++ [ {| circle_radius := r; circle_color := color;
                              circle_label := label |} ])
        else add_circles rest drawn)
  end.

(** The body of [plot_zones] up to [st.pyplot(fig)]. *)
Definition zone_figure (zone0 zone1 zone2 : value) : outcome figure :=
  and_then
    (add_circles [ (zone2, "#FFD700", "Zone 2"); (zone1, "#FF8C00", "Zone 1");
                   (zone0, "#FF0000", "Zone 0") ]%string [])
    (fun drawn =>
       and_then (py_neg zone2) (fun n =>
       and_then (py_sub n (VInt 1)) (fun xlo =>
       and_then (py_add zone2 (VInt 1)) (fun xhi =>
       and_then (py_neg zone2) (fun n' =>
       and_then (py_sub n' (VInt 1)) (fun ylo =>
       and_then (py_add zone2 (VInt 1)) (fun yhi =>
       Ok {| artists := drawn; xlim := (xlo, xhi); ylim := (ylo, yhi) |}))))))).

(** The upper axis limit for a corrected radius [R]. *)
Definition axis_top (R : F.float) : F.float :=
  SFadd F.prec F.emax (F.round R 2) (F.of_Z 1).

(** *** The report *)

(** The calls [create_pdf_report] makes on the FPDF object, in order, when
    each of them returns (a call that fails is the [AtRender] fault of the
    environment above).  The text of a cell is kept in two parts, the literal
    part of the f-string and the frame entry that is formatted after it; how
    the entry is printed is not modelled. *)
Inductive pdf_op :=
| OpAddPage
| OpSetFont (family style : string) (size : Z)
| OpCell (width height : Z) (text : string) (entry : option value)
         (ln : Z) (align : string)
| OpLn (height : Z).

Definition report_header : list pdf_op :=
  [ OpAddPage;
    OpSetFont "Arial" "B" 16;
    OpCell 0 10 "ATEX Zone Hesaplama Raporu" None 1 "C";
    OpSetFont "Arial" EmptyString 12 ]%string.

(** The body of [for idx, row in df.iterrows()]; [row['Senaryo']] raises
    when the frame has no such column. *)
Definition report_section (cols : list string) (row : dict) : outcome (list pdf_op) :=
  if existsb (String.eqb "Senaryo") cols then
    Ok ([ OpLn 5;
          OpSetFont "Arial" "B" 12;
          OpCell 0 10 "Senaryo: " (Some (frame_entry row "Senaryo")) 1 EmptyString;
          OpSetFont "Arial" EmptyString 11 ]
        ++ map (fun col => OpCell 0 8 (String.append col ": ") (Some (frame_entry row col))
                             1 EmptyString)
             (List.filter (fun col => negb (String.eqb col "Senaryo")) cols)
        ++ [ OpLn 2 ])
  else Raise (KeyError "Senaryo").

Fixpoint report_rows (cols : list string) (rows : list dict) : outcome (list pdf_op) :=
  match rows with
  | [] => Ok []
  | row :: rest =>
      and_then (report_section cols row) (fun section =>
      and_then (report_rows cols rest) (fun others =>
      Ok (section ++ others)))
  end.

(** Everything up to the creation of the temporary file. *)
Definition report_ops (df : list dict) : outcome (list pdf_op) :=
  and_then (report_rows (columns df) (iterrows df))
    (fun body => Ok (report_header ++ body)).

(** The section of the report for one record: the heading with the first
    field, then one line for each of the other fields, in order. *)
Definition section_of_record (d : dict) : list pdf_op :=
  ([ OpLn 5;
     OpSetFont "Arial" "B" 12;
     OpCell 0 10 "Senaryo: " (Some (frame_entry d "Senaryo")) 1 EmptyString;
     OpSetFont "Arial" EmptyString 11 ]
   ++ map (fun kv => OpCell 0 8 (String.append (fst kv) ": ") (Some (snd kv)) 1 EmptyString)
        (tail d)
   ++ [ OpLn 2 ]).

(** * Properties *)

Arguments F.mul : simpl never.
Arguments F.div : simpl never.
Arguments F.ltb : simpl never.
Arguments F.leb : simpl never.
Arguments F.eqb : simpl never.
Arguments F.of_Z : simpl never.
Arguments F.round : simpl never.
Arguments get_zone_radius : simpl never.
Arguments String.eqb : simpl never.

(** ** Order on floats *)

Lemma SFcompare_antisym (x y : F.float) :
  SFcompare y x = option_map CompOpp (SFcompare x y).
Proof.
  destruct x as [sx|sx| |sx mx ex], y as [sy|sy| |sy my ey]; simpl;
    try destruct sx; try destruct sy; simpl; try reflexivity.
  - rewrite (Z.compare_antisym ey ex).
    destruct (ey ?= ex) eqn:E; simpl; try reflexivity.
    rewrite (Pos.compare_cont_antisym mx my Eq). simpl.
    rewrite ?CompOpp_involutive. reflexivity.
  - rewrite (Z.compare_antisym ey ex).
    destruct (ey ?= ex) eqn:E; simpl; try reflexivity.
    rewrite (Pos.compare_cont_antisym mx my Eq). simpl.
    rewrite ?CompOpp_involutive. reflexivity.
Qed.

Lemma ltb_not_leb (x y : F.float) : (x <? y)%F = true -> (y <=? x)%F = false.
Proof.
  unfold F.ltb, F.leb, SFltb, SFleb. rewrite (SFcompare_antisym x y).
  destruct (SFcompare x y) as [[]|]; simpl; congruence.
Qed.

Lemma leb_rank (x y : F.float) :
  (x <=? y)%F = true <->
  exists a b, rank x = Some a /\ rank y = Some b /\ lex_le a b.
Proof.
  unfold F.leb, SFleb.
  destruct x as [sx|sx| |sx mx ex], y as [sy|sy| |sy my ey]; simpl;
    try destruct sx; try destruct sy; simpl;
    try (split; [intros _; eexists _, _; repeat split; simpl; lia
                | reflexivity]);
    try (split; [discriminate
                | intros (a & b & Ha & Hb & Hab); try discriminate;
                  inversion Ha; inversion Hb; subst; simpl in Hab; lia]).
  - rewrite Pos.compare_cont_spec; simpl.
    destruct (Z.compare_spec ex ey), (Pos.compare_spec mx my); simpl;
      (split; [ try discriminate; intros _; eexists _, _; repeat split; simpl; lia
              | intros (a & b & Ha & Hb & Hab);
                inversion Ha; inversion Hb; subst; simpl in Hab;
                try reflexivity; lia ]).
  - rewrite Pos.compare_cont_spec; simpl.
    destruct (Z.compare_spec ex ey), (Pos.compare_spec mx my); simpl;
      (split; [ try discriminate; intros _; eexists _, _; repeat split; simpl; lia
              | intros (a & b & Ha & Hb & Hab);
                inversion Ha; inversion Hb; subst; simpl in Hab;
                try reflexivity; lia ]).
Qed.

Lemma leb_trans (x y z : F.float) :
  (x <=? y)%F = true -> (y <=? z)%F = true -> (x <=? z)%F = true.
Proof.
  rewrite !leb_rank.
  intros (a & b & Ha & Hb & Hab) (b' & c & Hb' & Hc & Hbc).
  rewrite Hb in Hb'. inversion Hb'; subst b'.
  exists a, c. repeat split; try assumption.
  destruct a as [[a1 a2] a3], b as [[b1 b2] b3], c as [[c1 c2] c3].
  simpl in *. lia.
Qed.

(** ** Rounding *)

(** [round] on values that sit on or next to a decimal tie: 2.675 is stored
    below the tie and goes to 2.67, 0.125 and 0.375 are exact ties and go to
    the even neighbour, a tiny negative value keeps its sign. *)
Example round_ties :
  F.round (F.dec 2675 1000) 2 = F.dec 267 100
  /\ F.round (F.dec 125 1000) 2 = F.dec 12 100
  /\ F.round (F.dec 375 1000) 2 = F.dec 38 100
  /\ F.round (F.dec (-1) 1000) 2 = S754_zero true
  /\ F.round (F.dec 123456789 10000) 4 = F.dec 123456789 10000.
Proof. vm_compute. repeat split. Qed.

(** ** The step lookup *)

Lemma scan_rows_first (D : F.float) (rows : list table_row) :
  match scan_rows D rows with
  | Some r =>
      exists pre row post,
        rows = pre ++ row :: post
        /\ Forall (fun x => (D <=? D_max x)%F = false) pre
        /\ (D <=? D_max row)%F = true
        /\ r = radius row
  | None => Forall (fun x => (D <=? D_max x)%F = false) rows
  end.
Proof.
  induction rows as [|row rest IH]; simpl.
  - constructor.
  - destruct (D <=? D_max row)%F eqn:E.
    + exists [], row, rest. repeat split; [constructor | assumption].
    + destruct (scan_rows D rest) as [r|].
      * destruct IH as (pre & row' & post & -> & Hpre & Hrow & ->).
        exists (row :: pre), row', post. repeat split; try assumption.
        constructor; assumption.
      * constructor; assumption.
Qed.

Lemma get_zone_radius_cases (D : F.float) :
  In (get_zone_radius D) [Lit.f0_5; Lit.f1_0; Lit.f3_0; Lit.f5_0; Lit.f8_0].
Proof.
  unfold get_zone_radius, ZONE_RADIUS_TABLE, scan_rows; simpl.
  repeat match goal with
         | |- context [if ?c then _ else _] => destruct c
         end; simpl; tauto.
Qed.

(** C1. The thresholds of the table ascend, and the lookup walks the rows in
    their listed order, comparing with [<=], and answers with the radius of
    the first row whose threshold [D] does not exceed (0.5 when there is
    none).  Hence every [D <= 0.01] gives exactly 0.5, every
    [0.01 < D <= 0.1] gives exactly 1.0, and the boundary values 0.01 and 0.1
    themselves stay in the lower tier. *)
Theorem get_zone_radius_tiers (D : F.float) :
  ascending (map D_max ZONE_RADIUS_TABLE) = true
  /\ ((exists pre row post,
          ZONE_RADIUS_TABLE = pre ++ row :: post
          /\ Forall (fun x => (D <=? D_max x)%F = false) pre
          /\ (D <=? D_max row)%F = true
          /\ get_zone_radius D = radius row)
      \/ (Forall (fun x => (D <=? D_max x)%F = false) ZONE_RADIUS_TABLE
          /\ get_zone_radius D = Lit.f0_5))
  /\ ((D <=? Lit.f0_01)%F = true -> get_zone_radius D = Lit.f0_5)
  /\ ((Lit.f0_01 <? D)%F = true -> (D <=? Lit.f0_1)%F = true ->
      get_zone_radius D = Lit.f1_0)
  /\ get_zone_radius Lit.f0_01 = Lit.f0_5
  /\ get_zone_radius Lit.f0_1 = Lit.f1_0.
Proof.
  split; [reflexivity|].
  split; [|split; [|split; [|split]]].
  - unfold get_zone_radius.
    pose proof (scan_rows_first D ZONE_RADIUS_TABLE) as H.
    destruct (scan_rows D ZONE_RADIUS_TABLE) as [r|].
    + left. destruct H as (pre & row & post & H1 & H2 & H3 & H4).
      exists pre, row, post. auto.
    + right. auto.
  - intros H. unfold get_zone_radius, ZONE_RADIUS_TABLE, scan_rows; simpl.
    now rewrite H.
  - intros Hlt Hle. unfold get_zone_radius, ZONE_RADIUS_TABLE, scan_rows; simpl.
    now rewrite (ltb_not_leb _ _ Hlt), Hle.
  - reflexivity.
  - reflexivity.
Qed.

Lemma get_zone_radius_tiers_witness :
  get_zone_radius (F.dec 5 1000) = Lit.f0_5
  /\ get_zone_radius (F.dec 5 100) = Lit.f1_0.
Proof.
  split.
  - exact (proj1 (proj2 (proj2 (get_zone_radius_tiers (F.dec 5 1000)))) eq_refl).
  - exact (proj1 (proj2 (proj2 (proj2 (get_zone_radius_tiers (F.dec 5 100)))))
             eq_refl eq_refl).
Defined.

(** C7. The lookup is monotone: a larger dilution factor never gets a smaller
    base radius. *)
Theorem get_zone_radius_monotone (D1 D2 : F.float) :
  (D1 <=? D2)%F = true ->
  (get_zone_radius D1 <=? get_zone_radius D2)%F = true.
Proof.
  intros Hle.
  assert (Hup : forall t, (D2 <=? t)%F = true -> (D1 <=? t)%F = true)
    by (intros t; apply leb_trans; assumption).
  assert (Hnan : (D1 <=? F.inf)%F = true).
  { destruct D1 as [s|s| |s m e]; try destruct s; try reflexivity.
    destruct D2 as [s|s| |s m e]; discriminate Hle. }
  unfold get_zone_radius, ZONE_RADIUS_TABLE, scan_rows; simpl.
  destruct (D2 <=? Lit.f0_01)%F eqn:E1.
  { rewrite (Hup _ E1). reflexivity. }
  destruct (D2 <=? Lit.f0_1)%F eqn:E2.
  { rewrite (Hup _ E2). destruct (D1 <=? Lit.f0_01)%F; reflexivity. }
  destruct (D2 <=? Lit.f1_0)%F eqn:E3.
  { rewrite (Hup _ E3).
    destruct (D1 <=? Lit.f0_01)%F, (D1 <=? Lit.f0_1)%F; reflexivity. }
  destruct (D2 <=? Lit.f10_0)%F eqn:E4.
  { rewrite (Hup _ E4).
    destruct (D1 <=? Lit.f0_01)%F, (D1 <=? Lit.f0_1)%F, (D1 <=? Lit.f1_0)%F;
      reflexivity. }
  destruct (D2 <=? F.inf)%F eqn:E5.
  { rewrite Hnan.
    destruct (D1 <=? Lit.f0_01)%F, (D1 <=? Lit.f0_1)%F, (D1 <=? Lit.f1_0)%F,
      (D1 <=? Lit.f10_0)%F; reflexivity. }
  destruct D2 as [s|s| |s m e]; try destruct s; try discriminate E5.
  destruct D1 as [s|s| |s m e]; discriminate Hle.
Qed.

Lemma get_zone_radius_monotone_witness :
  (get_zone_radius (F.dec 5 100) <=? get_zone_radius (F.dec 7 1))%F = true.
Proof.
  apply (get_zone_radius_monotone (F.dec 5 100) (F.dec 7 1)). reflexivity.
Defined.

(** ** Running the calculator on a scenario *)

Lemma scenario_dict_items (f : form) (gaz : gas_row) :
  scenario_dict f gaz =
    [ ("Senaryo", VStr (scenario_name f));
      ("Gaz", VStr (gaz_adi f));
      ("Grup", VStr (grup gaz));
      ("LEL", VFloat (LEL gaz));
      ("Kaçak Tipi", VStr (leak_type f));
      ("Kaçak Debisi", VFloat (leak_rate f));
      ("Kaçak Süresi", VFloat (leak_duration f));
      ("Havalandırma Debisi", VFloat (ventilation_rate f));
      ("Havalandırma Tipi", VStr (ventilation_type f));
      ("Hacim", VFloat (volume f));
      ("Sıcaklık", VFloat (temp f));
      ("Basınç", VFloat (pressure f));
      ("Not", VStr (notes f)) ]%string.
Proof. reflexivity. Qed.

Lemma bind_getitem {B} (a : nat) (k : string) (K : value -> M B) (w : world)
    (d : dict) (v : value) :
  heap w !! a = Some d -> dict_get d k = Some v ->
  bind (getitem a k) K w = K v w.
Proof. intros H1 H2. unfold bind, getitem. now rewrite H1, H2. Qed.

Lemma bind_lift {A B} (o : outcome A) (K : A -> M B) (w : world) :
  bind (lift o) K w = match o with Ok x => K x w | Raise e => (Raise e, w) end.
Proof. reflexivity. Qed.

Ltac read_row :=
  erewrite bind_getitem by (eassumption || reflexivity); cbn [snd].

(** On a row built by the submit handler the calculator either stops at the
    division or allocates [zone_result]; it does nothing else. *)
Lemma calculate_zones_scenario (w : world) (a : nat) (f : form) (gaz : gas_row) :
  heap w !! a = Some (scenario_dict f gaz) ->
  calculate_zones a w =
    if (ventilation_rate f =? F.zero)%F then (Raise ZeroDivisionError, w)
    else alloc (zone_result f gaz) w.
Proof.
  intros H. unfold calculate_zones.
  do 3 read_row.
  rewrite bind_lift. cbn [py_truediv operand and_then is_zero].
  destruct (ventilation_rate f =? F.zero)%F eqn:Ez; [reflexivity|].
  read_row. cbn [py_eq].
  assert (Hg : forall B (K : F.float -> M B),
    bind (if String.eqb (grup gaz) "IIC"
          then ret (get_zone_radius (leak_rate f / ventilation_rate f) * Lit.f1_2)%F
          else let* g' := getitem a "Grup" in
               ret (if py_eq g' (VStr "IIB")
                    then (get_zone_radius (leak_rate f / ventilation_rate f) * Lit.f1_1)%F
                    else get_zone_radius (leak_rate f / ventilation_rate f))) K w
    = K (if String.eqb (grup gaz) "IIC"
         then (get_zone_radius (dilution f) * Lit.f1_2)%F
         else if String.eqb (grup gaz) "IIB"
              then (get_zone_radius (dilution f) * Lit.f1_1)%F
              else get_zone_radius (dilution f)) w).
  { intros B K. destruct (String.eqb (grup gaz) "IIC").
    - reflexivity.
    - unfold bind at 1. read_row. reflexivity. }
  rewrite Hg. clear Hg.
  read_row. rewrite bind_lift. cbn [py_lt to_float].
  read_row. rewrite bind_lift. cbn [py_lt to_float].
  read_row. rewrite bind_lift. cbn [py_gt py_lt to_float].
  read_row. rewrite bind_lift. cbn [py_gt py_lt to_float].
  unfold zone_result, corrected_radius, correct.
  destruct (String.eqb (leak_type f) "Sürekli"); reflexivity.
Qed.

Lemma positive_not_zero (x : F.float) : (F.zero <? x)%F = true -> (x =? F.zero)%F = false.
Proof. destruct x as [s|s| |s m e]; try destruct s; intros H; try reflexivity; discriminate H. Qed.

Lemma valid_scenario_ventilation (f : form) (gaz : gas_row) :
  valid_scenario f gaz = true -> (ventilation_rate f =? F.zero)%F = false.
Proof.
  unfold valid_scenario. rewrite !andb_true_iff. intros H.
  apply positive_not_zero. tauto.
Qed.

Lemma form_in_range_ventilation (f : form) :
  form_in_range f = true -> (ventilation_rate f =? F.zero)%F = false.
Proof.
  unfold form_in_range. rewrite !andb_true_iff. intros H.
  assert (Hv : (Lit.f0_01 <=? ventilation_rate f)%F = true) by tauto.
  destruct (ventilation_rate f) as [s|s| |s m e]; try destruct s;
    try reflexivity; discriminate Hv.
Qed.

(** The first worked example of the specification: group IIA, LEL 5, leak
    rate 10, ventilation 100, no correction, continuous leak. *)
Example sample_result :
  zone_result sample_form sample_gas =
    [ ("Zone 0 Yarıçapı (m)", VFloat (F.dec 30 100));
      ("Zone 1 Yarıçapı (m)", VFloat (F.dec 70 100));
      ("Zone 2 Yarıçapı (m)", VFloat (F.dec 100 100));
      ("Seyrelme Faktörü (D)", VFloat (F.dec 1000 10000)) ]%string.
Proof. vm_compute. reflexivity. Qed.

(** C2. The worked example: group IIC, LEL 1, leak rate 50, ventilation 10,
    volume 5, temperature 50, pressure 1.0, leak type "Birincil" (primary).
    The calculator returns zone 0 = 0, zone 1 = 3.88, zone 2 = 5.54 and
    D = 5.0, each radius being a value rounded to 2 places and D to 4. *)
Theorem example_IIC_primary (w : world) (a : nat) (f : form) (gaz : gas_row) :
  heap w !! a = Some (scenario_dict f gaz) ->
  grup gaz = "IIC"%string -> LEL gaz = F.of_Z 1 ->
  leak_rate f = F.of_Z 50 -> ventilation_rate f = F.of_Z 10 ->
  volume f = F.of_Z 5 -> temp f = F.of_Z 50 -> pressure f = Lit.f1_0 ->
  leak_type f = "Birincil"%string ->
  calculate_zones a w =
    alloc [ ("Zone 0 Yarıçapı (m)", VInt 0);
            ("Zone 1 Yarıçapı (m)", VFloat (F.dec 388 100));
            ("Zone 2 Yarıçapı (m)", VFloat (F.dec 554 100));
            ("Seyrelme Faktörü (D)", VFloat (F.dec 50000 10000)) ]%string w
  /\ F.dec 388 100 = F.round (corrected_radius f gaz * Lit.f0_7)%F 2
  /\ F.dec 554 100 = F.round (corrected_radius f gaz) 2
  /\ F.dec 50000 10000 = F.round (dilution f) 4.
Proof.
  intros H Hg Hl Hlr Hvr Hv Ht Hp Hk.
  rewrite (calculate_zones_scenario w a f gaz H).
  unfold zone_result, corrected_radius, dilution.
  rewrite Hg, Hl, Hlr, Hvr, Hv, Ht, Hp, Hk.
  repeat split; vm_compute; reflexivity.
Qed.

Lemma example_IIC_primary_witness :
  let f := {| gaz_adi := "Hidrojen"; leak_type := "Birincil";
              leak_rate := F.of_Z 50; leak_duration := F.of_Z 1;
              ventilation_rate := F.of_Z 10; ventilation_type := "Mekanik";
              volume := F.of_Z 5; temp := F.of_Z 50; pressure := Lit.f1_0;
              scenario_name := "Senaryo 1"; notes := EmptyString |}%string in
  let gaz := {| isim := "Hidrojen"; grup := "IIC"; LEL := F.of_Z 1 |}%string in
  let w := one_row (scenario_dict f gaz) in
  fst (calculate_zones 0 w) = Ok 1%nat
  /\ heap (snd (calculate_zones 0 w)) !! 1%nat =
       Some [ ("Zone 0 Yarıçapı (m)", VInt 0);
              ("Zone 1 Yarıçapı (m)", VFloat (F.dec 388 100));
              ("Zone 2 Yarıçapı (m)", VFloat (F.dec 554 100));
              ("Seyrelme Faktörü (D)", VFloat (F.dec 50000 10000)) ]%string.
Proof.
  intros f gaz w.
  destruct (example_IIC_primary w 0%nat f gaz eq_refl eq_refl eq_refl eq_refl
              eq_refl eq_refl eq_refl eq_refl eq_refl) as [E _].
  rewrite E. split; reflexivity.
Defined.

Lemma nested_all (base : F.float) (iic iib lel_low small hot high_p continuous : bool) :
  In base [Lit.f0_5; Lit.f1_0; Lit.f3_0; Lit.f5_0; Lit.f8_0] ->
  nested (correct base iic iib lel_low small hot high_p) continuous = true.
Proof.
  intros [<-|[<-|[<-|[<-|[<-|[]]]]]];
    destruct iic, iib, lel_low, small, hot, high_p, continuous;
    vm_compute; reflexivity.
Qed.

(** C3. For every valid scenario the calculator returns, and the radii it
    returns are nested: zone 0 <= zone 1 <= zone 2. *)
Theorem zones_nested (w : world) (a : nat) (f : form) (gaz : gas_row) :
  heap w !! a = Some (scenario_dict f gaz) ->
  valid_scenario f gaz = true ->
  exists d z0 z1 z2,
    calculate_zones a w = alloc d w
    /\ dict_get d "Zone 0 Yarıçapı (m)" = Some z0
    /\ dict_get d "Zone 1 Yarıçapı (m)" = Some z1
    /\ dict_get d "Zone 2 Yarıçapı (m)" = Some z2
    /\ value_leb z0 z1 = true
    /\ value_leb z1 z2 = true.
Proof.
  intros H Hv.
  rewrite (calculate_zones_scenario w a f gaz H).
  rewrite (valid_scenario_ventilation f gaz Hv).
  pose proof (nested_all (get_zone_radius (dilution f))
                (String.eqb (grup gaz) "IIC") (String.eqb (grup gaz) "IIB")
                (LEL gaz <? F.of_Z 2)%F (volume f <? F.of_Z 10)%F
                (F.of_Z 40 <? temp f)%F (Lit.f1_2 <? pressure f)%F
                (String.eqb (leak_type f) "Sürekli")
                (get_zone_radius_cases (dilution f))) as Hn.
  fold (corrected_radius f gaz) in Hn. unfold nested in Hn.
  apply andb_true_iff in Hn as [H01 H12].
  eexists (zone_result f gaz), _, _, _.
  split; [reflexivity|].
  split; [reflexivity|]. split; [reflexivity|]. split; [reflexivity|].
  split; assumption.
Qed.

Lemma zones_nested_witness :
  exists d z0 z1 z2,
    calculate_zones 0 sample_world = alloc d sample_world
    /\ dict_get d "Zone 0 Yarıçapı (m)" = Some z0
    /\ dict_get d "Zone 1 Yarıçapı (m)" = Some z1
    /\ dict_get d "Zone 2 Yarıçapı (m)" = Some z2
    /\ value_leb z0 z1 = true
    /\ value_leb z1 z2 = true.
Proof.
  exact (zones_nested sample_world 0%nat sample_form sample_gas eq_refl eq_refl).
Defined.

(** C4. Two scenarios that differ in the leak type only get the same zone 1
    and zone 2 radii (and the same dilution factor), computed from the same
    corrected radius [R], which does not depend on the leak type.  Zone 0 is
    [R * 0.3] (rounded) when the leak type is "Sürekli" (continuous) and the
    integer 0 when it is "Birincil" (primary) or "İkincil" (secondary). *)
Theorem leak_type_gates_zone0_only
    (w1 w2 : world) (a1 a2 : nat) (f : form) (gaz : gas_row) (t1 t2 : string) :
  heap w1 !! a1 = Some (scenario_dict (with_leak_type t1 f) gaz) ->
  heap w2 !! a2 = Some (scenario_dict (with_leak_type t2 f) gaz) ->
  (ventilation_rate f =? F.zero)%F = false ->
  let R := corrected_radius f gaz in
  exists d1 d2,
    calculate_zones a1 w1 = alloc d1 w1
    /\ calculate_zones a2 w2 = alloc d2 w2
    /\ corrected_radius (with_leak_type t1 f) gaz = R
    /\ corrected_radius (with_leak_type t2 f) gaz = R
    /\ dict_get d1 "Zone 1 Yarıçapı (m)" = Some (VFloat (F.round (R * Lit.f0_7)%F 2))
    /\ dict_get d2 "Zone 1 Yarıçapı (m)" = Some (VFloat (F.round (R * Lit.f0_7)%F 2))
    /\ dict_get d1 "Zone 2 Yarıçapı (m)" = Some (VFloat (F.round R 2))
    /\ dict_get d2 "Zone 2 Yarıçapı (m)" = Some (VFloat (F.round R 2))
    /\ dict_get d1 "Seyrelme Faktörü (D)" = dict_get d2 "Seyrelme Faktörü (D)"
    /\ (t1 = "Sürekli"%string ->
        dict_get d1 "Zone 0 Yarıçapı (m)" = Some (VFloat (F.round (R * Lit.f0_3)%F 2)))
    /\ (t2 = "Birincil"%string \/ t2 = "İkincil"%string ->
        dict_get d2 "Zone 0 Yarıçapı (m)" = Some (VInt 0)).
Proof.
  intros H1 H2 Hv R.
  exists (zone_result (with_leak_type t1 f) gaz), (zone_result (with_leak_type t2 f) gaz).
  rewrite (calculate_zones_scenario w1 a1 _ gaz H1).
  rewrite (calculate_zones_scenario w2 a2 _ gaz H2).
  cbn [ventilation_rate with_leak_type]. rewrite Hv.
  repeat split.
  - intros ->. reflexivity.
  - intros [-> | ->]; reflexivity.
Qed.

Lemma leak_type_gates_zone0_only_witness :
  let w1 := one_row (scenario_dict (with_leak_type "Sürekli" sample_form) sample_gas) in
  let w2 := one_row (scenario_dict (with_leak_type "Birincil" sample_form) sample_gas) in
  exists d1 d2,
    calculate_zones 0 w1 = alloc d1 w1
    /\ calculate_zones 0 w2 = alloc d2 w2
    /\ dict_get d1 "Zone 1 Yarıçapı (m)" = dict_get d2 "Zone 1 Yarıçapı (m)"
    /\ dict_get d1 "Zone 2 Yarıçapı (m)" = dict_get d2 "Zone 2 Yarıçapı (m)"
    /\ dict_get d1 "Zone 0 Yarıçapı (m)" = Some (VFloat (F.dec 3 10))
    /\ dict_get d2 "Zone 0 Yarıçapı (m)" = Some (VInt 0).
Proof.
  intros w1 w2.
  destruct (leak_type_gates_zone0_only w1 w2 0%nat 0%nat sample_form sample_gas
              "Sürekli" "Birincil" eq_refl eq_refl eq_refl)
    as (d1 & d2 & E1 & E2 & _ & _ & Z1 & Z1' & Z2 & Z2' & _ & Z0 & Z0').
  exists d1, d2.
  split; [exact E1|]. split; [exact E2|].
  split; [now rewrite Z1, Z1'|]. split; [now rewrite Z2, Z2'|].
  split; [exact (Z0 eq_refl) | exact (Z0' (or_introl eq_refl))].
Defined.

(** C6. On a scenario row the division raises [ZeroDivisionError] exactly
    when the ventilation rate is zero, whatever the leak rate; with a
    positive ventilation rate the branch is not taken, and on every valid
    scenario the calculator returns a result. *)
Theorem division_by_zero_only (w : world) (a : nat) (f : form) (gaz : gas_row) :
  heap w !! a = Some (scenario_dict f gaz) ->
  (py_truediv (VFloat (leak_rate f)) (VFloat (ventilation_rate f))
     = Raise ZeroDivisionError
   <-> (ventilation_rate f =? F.zero)%F = true)
  /\ (fst (calculate_zones a w) = Raise ZeroDivisionError
      <-> (ventilation_rate f =? F.zero)%F = true)
  /\ ((F.zero <? ventilation_rate f)%F = true ->
      py_truediv (VFloat (leak_rate f)) (VFloat (ventilation_rate f))
        = Ok (dilution f)
      /\ exists res w', calculate_zones a w = (Ok res, w'))
  /\ (valid_scenario f gaz = true ->
      exists res w', calculate_zones a w = (Ok res, w')).
Proof.
  intros H.
  rewrite (calculate_zones_scenario w a f gaz H).
  cbn [py_truediv operand and_then is_zero].
  split; [|split; [|split]].
  - destruct (ventilation_rate f =? F.zero)%F; split; congruence.
  - destruct (ventilation_rate f =? F.zero)%F; cbn; split; congruence.
  - intros Hp. rewrite (positive_not_zero _ Hp).
    split; [reflexivity|]. unfold alloc. eauto.
  - intros Hv. rewrite (valid_scenario_ventilation f gaz Hv).
    unfold alloc. eauto.
Qed.

Lemma division_by_zero_only_witness :
  exists res w', calculate_zones 0 sample_world = (Ok res, w').
Proof.
  exact (proj2 (proj2 (proj2
           (division_by_zero_only sample_world 0%nat sample_form sample_gas eq_refl)))
           eq_refl).
Defined.

(** ** The calculator reads its row and allocates its result *)

Lemma reads_ret (row : nat) {A} (x : A) : reads_only row (ret x).
Proof. intros w. exists (Ok x). split; [reflexivity | intros; reflexivity]. Qed.

Lemma reads_lift (row : nat) {A} (o : outcome A) : reads_only row (lift o).
Proof. intros w. exists o. split; [reflexivity | intros; reflexivity]. Qed.

Lemma reads_getitem (row : nat) (k : string) : reads_only row (getitem row k).
Proof.
  intros w. unfold getitem.
  destruct (heap w !! row) as [d|] eqn:E.
  - destruct (dict_get d k) as [v|] eqn:Ek; eexists; (split; [reflexivity|]);
      intros w' ->; now rewrite Ek.
  - eexists; split; [reflexivity|]. intros w' ->. reflexivity.
Qed.

Lemma reads_bind (row : nat) {A B} (m : M A) (K : A -> M B) :
  reads_only row m -> (forall x, reads_only row (K x)) -> reads_only row (bind m K).
Proof.
  intros Hm HK w. unfold bind.
  destruct (Hm w) as (o & E & Eq'). destruct o as [x|e].
  - destruct (HK x w) as (o' & E' & Eq''). exists o'. rewrite E. split; [exact E'|].
    intros w' Hw'. rewrite (Eq' w' Hw'). now apply Eq''.
  - exists (Raise e). rewrite E. split; [reflexivity|].
    intros w' Hw'. now rewrite (Eq' w' Hw').
Qed.

Lemma allocates_alloc (row : nat) (d : dict) : allocates row (alloc d).
Proof. intros w. right. exists d. split; [reflexivity | intros; reflexivity]. Qed.

Lemma allocates_bind (row : nat) {A} (m : M A) (K : A -> M nat) :
  reads_only row m -> (forall x, allocates row (K x)) -> allocates row (bind m K).
Proof.
  intros Hm HK w. unfold bind.
  destruct (Hm w) as (o & E & Eq'). destruct o as [x|e].
  - rewrite E. destruct (HK x w) as [(e & E' & Eq'')|(d & E' & Eq'')].
    + left. exists e. split; [exact E'|].
      intros w' Hw'. rewrite (Eq' w' Hw'). now apply Eq''.
    + right. exists d. split; [exact E'|].
      intros w' Hw'. rewrite (Eq' w' Hw'). now apply Eq''.
  - left. exists e. rewrite E. split; [reflexivity|].
    intros w' Hw'. now rewrite (Eq' w' Hw').
Qed.

Lemma calculate_zones_allocates (row : nat) : allocates row (calculate_zones row).
Proof.
  unfold calculate_zones.
  repeat first
    [ apply allocates_alloc
    | apply allocates_bind; [| intros ?]
    | apply reads_getitem
    | apply reads_lift
    | apply reads_ret
    | apply reads_bind; [| intros ?]
    | match goal with
      | |- reads_only _ (if ?c then _ else _) => destruct c
      end ].
Qed.

Lemma calculate_zones_dangling (row : nat) (w : world) :
  heap w !! row = None -> calculate_zones row w = (Raise InvalidAddress, w).
Proof.
  intros H. unfold calculate_zones. unfold bind at 1. unfold getitem at 1.
  now rewrite H.
Qed.

(** The two shapes of a call, on any world and any address. *)
Lemma calculate_zones_effect (row : nat) (w : world) :
  (exists e, calculate_zones row w = (Raise e, w)
     /\ forall w', heap w' !! row = heap w !! row ->
                   calculate_zones row w' = (Raise e, w'))
  \/ (exists d, calculate_zones row w = alloc d w
     /\ is_Some (heap w !! row)
     /\ forall w', heap w' !! row = heap w !! row ->
                   calculate_zones row w' = alloc d w').
Proof.
  destruct (calculate_zones_allocates row w) as [H|(d & E & H)]; [left; exact H|].
  destruct (heap w !! row) as [d0|] eqn:E0.
  - right. exists d. repeat split; eauto.
  - rewrite (calculate_zones_dangling row w E0) in E. discriminate E.
Qed.

(** C8. The calculator is deterministic and free of side effects.  Called
    twice on the same row it gives the same outcome: equal result dicts (all
    four fields), or the same exception.  No call modifies the row or any
    other object, the session list, the files or the output; the only trace
    of a call is the fresh dict it returns. *)
Theorem calculate_zones_pure (w : world) (row : nat) :
  exists o1 w1 o2 w2,
    calculate_zones row w = (o1, w1)
    /\ calculate_zones row w1 = (o2, w2)
    /\ match o1, o2 with
       | Ok r1, Ok r2 =>
           exists d, heap w1 !! r1 = Some d /\ heap w2 !! r2 = Some d
                     /\ heap w1 = heap w ++ [d] /\ heap w2 = heap w1 ++ [d]
       | Raise e1, Raise e2 => e1 = e2 /\ w1 = w /\ w2 = w
       | _, _ => False
       end
    /\ (forall a d, heap w !! a = Some d ->
                    heap w1 !! a = Some d /\ heap w2 !! a = Some d)
    /\ session_scenarios w1 = session_scenarios w
    /\ session_scenarios w2 = session_scenarios w
    /\ files w1 = files w /\ files w2 = files w
    /\ ui w1 = ui w /\ ui w2 = ui w
    /\ calls w1 = calls w /\ calls w2 = calls w.
Proof.
  destruct (calculate_zones_effect row w) as [(e & E & H)|(d & E & [d0 Hd0] & H)].
  - exists (Raise e), w, (Raise e), w. rewrite E. repeat split; auto.
  - assert (Hrow : heap (snd (alloc d w)) !! row = heap w !! row).
    { cbn. rewrite Hd0. apply lookup_app_l_Some. exact Hd0. }
    exists (Ok (length (heap w))), (snd (alloc d w)),
           (Ok (length (heap (snd (alloc d w))))), (snd (alloc d (snd (alloc d w)))).
    rewrite E, (H _ Hrow).
    split; [reflexivity|]. split; [reflexivity|]. split.
    + exists d. cbn. repeat split.
      * apply list_lookup_middle. reflexivity.
      * apply list_lookup_middle. reflexivity.
    + cbn. repeat split; auto.
      * now apply lookup_app_l_Some.
      * now apply lookup_app_l_Some, lookup_app_l_Some.
Qed.

(** ** Gas lookup and the submit handler *)

Lemma lookup_gas_unknown (gazlar : list gas_row) (name : string) :
  (forall g, In g gazlar -> isim g <> name) ->
  lookup_gas gazlar name = Raise IndexError.
Proof.
  intros Hno. unfold lookup_gas.
  assert (E : filter (fun g => String.eqb (isim g) name) gazlar = []).
  { induction gazlar as [|g rest IH]; [reflexivity|].
    rewrite filter_cons.
    destruct (decide (String.eqb (isim g) name)) as [Heq|Hne].
    - apply Is_true_true, String.eqb_eq in Heq.
      exfalso. apply (Hno g); [left; reflexivity | exact Heq].
    - apply IH. intros g' Hg'. apply Hno. right. exact Hg'. }
  now rewrite E.
Qed.

Lemma lookup_gas_found (gazlar : list gas_row) (name : string) (gaz : gas_row) :
  lookup_gas gazlar name = Ok gaz -> In gaz gazlar /\ isim gaz = name.
Proof.
  unfold lookup_gas.
  destruct (filter (fun g => String.eqb (isim g) name) gazlar) as [|g rest] eqn:E;
    [discriminate|].
  intros [= <-].
  assert (Hin : g ∈ filter (fun g => String.eqb (isim g) name) gazlar)
    by (rewrite E; left).
  apply list_elem_of_filter in Hin as [Hp Hin].
  split.
  - now apply list_elem_of_In.
  - now apply Is_true_true, String.eqb_eq in Hp.
Qed.

(** ** The results loop *)

Lemma scenario_at_kept (gazlar : list gas_row) (w w' : world) (a : nat) :
  heap_kept w w' -> scenario_at gazlar w a -> scenario_at gazlar w' a.
Proof.
  intros [new E] (f & gaz & H & Hin & Hn & Hv).
  exists f, gaz. rewrite E. repeat split; try assumption.
  now apply lookup_app_l_Some.
Qed.

Lemma heap_kept_refl (w : world) : heap_kept w w.
Proof. exists []. now rewrite app_nil_r. Qed.

Lemma heap_kept_trans (w1 w2 w3 : world) :
  heap_kept w1 w2 -> heap_kept w2 w3 -> heap_kept w1 w3.
Proof. intros [n1 E1] [n2 E2]. exists (n1 ++ n2). now rewrite E2, E1, app_assoc. Qed.

Lemma heap_kept_lookup (w w' : world) (a : nat) (d : dict) :
  heap_kept w w' -> heap w !! a = Some d -> heap w' !! a = Some d.
Proof. intros [new E] H. rewrite E. now apply lookup_app_l_Some. Qed.

Lemma dict_set_fresh (d : dict) (k : string) (v : value) :
  ~ In k (keys d) -> dict_set d k v = d ++ [(k, v)].
Proof.
  induction d as [|[k' v'] rest IH]; intros Hk; [reflexivity|].
  cbn [dict_set]. destruct (String.eqb_spec k' k) as [->|Hne].
  - exfalso. apply Hk. left. reflexivity.
  - rewrite IH; [reflexivity|]. intros Hin. apply Hk. right. exact Hin.
Qed.

Lemma dict_merge_disjoint (a b : dict) :
  NoDup (keys b) -> (forall k, In k (keys b) -> ~ In k (keys a)) ->
  dict_merge a b = a ++ b.
Proof.
  unfold dict_merge. revert a.
  induction b as [|[k v] rest IH]; intros a Hnd Hdis; cbn [fold_left].
  - now rewrite app_nil_r.
  - cbn [fst snd]. apply NoDup_cons in Hnd as [Hk Hnd].
    rewrite dict_set_fresh by (apply Hdis; left; reflexivity).
    rewrite IH; [now rewrite <- app_assoc | exact Hnd |].
    intros k' Hk' Hin. unfold keys in Hin. rewrite map_app in Hin.
    apply in_app_or in Hin as [Hin|[<-|[]]].
    + apply (Hdis k'); [right; exact Hk' | exact Hin].
    + apply Hk. apply list_elem_of_In. exact Hk'.
Qed.

Lemma merge_scenario_result (f : form) (gaz : gas_row) :
  dict_merge (scenario_dict f gaz) (zone_result f gaz)
  = scenario_dict f gaz ++ zone_result f gaz.
Proof.
  apply dict_merge_disjoint.
  - unfold zone_result, keys. cbn [map fst].
    repeat (apply NoDup_cons; split;
            [rewrite list_elem_of_In; cbn; intuition discriminate|]).
    apply NoDup_nil_2.
  - rewrite scenario_dict_items. unfold zone_result, keys. cbn [map fst].
    intros k Hk Hin. cbn in Hk, Hin.
    intuition (subst; discriminate).
Qed.

Lemma results_loop_scenarios (gazlar : list gas_row) (rows : list nat) :
  forall (w : world) (results : list nat),
    (forall a, In a rows -> scenario_at gazlar w a) ->
    exists fresh w',
      results_loop rows results w = (Ok (results ++ fresh), w')
      /\ length fresh = length rows
      /\ heap_kept w w'
      /\ session_scenarios w' = session_scenarios w
      /\ files w' = files w
      /\ ui w' = ui w
      /\ calls w' = calls w ++ rows
      /\ forall i row, rows !! i = Some row ->
           exists f gaz m,
             heap w !! row = Some (scenario_dict f gaz)
             /\ fresh !! i = Some m
             /\ heap w' !! m = Some (scenario_dict f gaz ++ zone_result f gaz).
Proof.
  induction rows as [|row rest IH]; intros w results Hrows.
  - exists [], w. cbn. rewrite !app_nil_r. repeat split; try apply heap_kept_refl.
    intros i row H. discriminate H.
  - destruct (Hrows row (or_introl eq_refl)) as (f & gaz & Hrow & Hin & Hn & Hv).
    cbn [results_loop]. unfold bind at 1. cbn [note_call].
    unfold bind at 1.
    erewrite calculate_zones_scenario by (cbn [heap]; exact Hrow).
    rewrite Hv. cbn [alloc heap session_scenarios files ui calls].
    unfold bind at 1. unfold deref at 1. cbn [heap].
    rewrite (lookup_app_l_Some _ _ _ _ Hrow).
    unfold bind at 1. unfold deref at 1. cbn [heap].
    rewrite list_lookup_middle by reflexivity.
    unfold bind at 1. cbn [alloc heap session_scenarios files ui calls].
    set (w2 := {| heap := _ |}).
    assert (Hk2 : heap_kept w w2).
    { exists [zone_result f gaz; dict_merge (scenario_dict f gaz) (zone_result f gaz)].
      subst w2. cbn [heap]. now rewrite <- app_assoc. }
    destruct (IH w2 (results ++ [length (heap w ++ [zone_result f gaz])]))
      as (fresh & w' & E & Hlen & Hk & Hs & Hf & Hu & Hc & Hrec).
    { intros a Ha. apply (scenario_at_kept gazlar w); [exact Hk2|].
      apply Hrows. right. exact Ha. }
    exists (length (heap w ++ [zone_result f gaz]) :: fresh), w'.
    rewrite E, <- app_assoc. cbn [app].
    split; [reflexivity|]. split; [cbn; now rewrite Hlen|].
    split; [eapply heap_kept_trans; eassumption|].
    split; [exact Hs|]. split; [exact Hf|]. split; [exact Hu|].
    split; [rewrite Hc; subst w2; cbn [calls]; now rewrite <- app_assoc|].
    intros [|i] row0 Hi.
    + injection Hi as <-. exists f, gaz, (length (heap w ++ [zone_result f gaz])).
      split; [exact Hrow|]. split; [reflexivity|].
      apply (heap_kept_lookup w2); [exact Hk|].
      subst w2. cbn [heap]. rewrite merge_scenario_result.
      apply list_lookup_middle. reflexivity.
    + cbn in Hi. destruct (Hrec i row0 Hi) as (f0 & gaz0 & m & H0 & Hm & Hm').
      exists f0, gaz0, m. split; [|split; assumption].
      destruct (Hrows row0) as (f1 & gaz1 & H1 & _).
      { right. apply list_elem_of_In. eapply list_elem_of_lookup_2. exact Hi. }
      rewrite H1. rewrite (heap_kept_lookup w w2 _ _ Hk2 H1) in H0. exact H0.
Qed.


Lemma dict_get_app_l (a b : dict) (k : string) :
  In k (keys a) -> dict_get (a ++ b) k = dict_get a k.
Proof.
  induction a as [|[k' v'] rest IH]; intros Hk; [destruct Hk|].
  cbn [app dict_get]. destruct (String.eqb_spec k' k) as [->|Hne]; [reflexivity|].
  apply IH. destruct Hk as [Hk|Hk]; [contradiction | exact Hk].
Qed.

Lemma records_of_reads (w : world) (l : list nat) :
  (forall i m, l !! i = Some m -> is_Some (heap w !! m)) ->
  exists records,
    records_of l w = (Ok records, w)
    /\ length records = length l
    /\ forall i m, l !! i = Some m -> records !! i = heap w !! m.
Proof.
  induction l as [|a rest IH]; intros Hl.
  - exists []. repeat split. intros i m H. discriminate H.
  - destruct (Hl 0%nat a eq_refl) as [d Hd].
    destruct IH as (ds & E & Hlen & Hds).
    { intros i m H. apply (Hl (S i)). exact H. }
    exists (d :: ds). cbn [records_of].
    unfold bind at 1. unfold deref at 1. rewrite Hd.
    unfold bind at 1. rewrite E. cbn [ret].
    split; [reflexivity|]. split; [cbn; now rewrite Hlen|].
    intros [|i] m H.
    + injection H as <-. now rewrite Hd.
    + apply Hds. exact H.
Qed.

Lemma DataFrame_reads (w : world) (l : list nat) :
  (forall i m, l !! i = Some m -> is_Some (heap w !! m)) ->
  exists records,
    DataFrame l w = (Ok (frame_of records), w)
    /\ length records = length l
    /\ forall i m, l !! i = Some m -> records !! i = heap w !! m.
Proof.
  intros Hl. destruct (records_of_reads w l Hl) as (records & E & Hlen & Hrec).
  exists records. unfold DataFrame. unfold bind. rewrite E.
  split; [reflexivity | split; assumption].
Qed.

(** ** The frame of the records *)

Lemma record_keys (f : form) (gaz : gas_row) :
  keys (record_of f gaz) = record_columns_list.
Proof. reflexivity. Qed.

Lemma frame_record_keys (d : dict) : frame_record d -> keys d = record_columns_list.
Proof. intros (fc & f & gaz & ->). reflexivity. Qed.

Lemma columns_of_keys (df : list dict) :
  (forall d, In d df -> keys d = record_columns_list) ->
  df <> [] -> columns df = record_columns_list.
Proof.
  intros Hall Hne. destruct df as [|d0 rest]; [contradiction|]. clear Hne.
  unfold columns. cbn [fold_left].
  rewrite (Hall d0 (or_introl eq_refl)).
  change (fold_left add_key record_columns_list []) with record_columns_list.
  assert (Hrest : forall d, In d rest -> keys d = record_columns_list)
    by (intros d Hd; apply Hall; right; exact Hd).
  clear Hall. induction rest as [|d rest IH]; [reflexivity|].
  cbn [fold_left]. rewrite (Hrest d (or_introl eq_refl)).
  change (fold_left add_key record_columns_list record_columns_list)
    with record_columns_list.
  apply IH. intros d' Hd'. apply Hrest. right. exact Hd'.
Qed.

Lemma columns_of_records (df : list dict) :
  (forall d, In d df -> exists f gaz, d = record_of f gaz) ->
  df <> [] -> columns df = record_columns_list.
Proof.
  intros Hall. apply columns_of_keys.
  intros d Hd. destruct (Hall d Hd) as (f & gaz & ->). apply record_keys.
Qed.

Lemma record_zone0 (f : form) (gaz : gas_row) :
  dict_get (record_of f gaz) "Zone 0 Yarıçapı (m)"
  = Some (if String.eqb (leak_type f) "Sürekli"
          then VFloat (F.round (corrected_radius f gaz * Lit.f0_3)%F 2)
          else VInt 0).
Proof. reflexivity. Qed.

Lemma record_continuous (f : form) (gaz : gas_row) :
  is_continuous (record_of f gaz) = String.eqb (leak_type f) "Sürekli".
Proof. reflexivity. Qed.

Lemma scenario_continuous (f : form) (gaz : gas_row) :
  is_continuous (scenario_dict f gaz) = String.eqb (leak_type f) "Sürekli".
Proof. reflexivity. Qed.

(** The zone 0 column of a frame of records is a column of floats exactly
    when one of the records is continuous. *)
Lemma zone0_column_dtype (records : list dict) :
  (forall d, In d records -> exists f gaz, d = record_of f gaz) ->
  column_dtype records "Zone 0 Yarıçapı (m)"
  = if existsb is_continuous records then DFloat else DInt.
Proof.
  induction records as [|d rest IH]; intros Hall; [reflexivity|].
  destruct (Hall d (or_introl eq_refl)) as (f & gaz & ->).
  cbn [column_dtype fold_right existsb].
  fold (column_dtype rest "Zone 0 Yarıçapı (m)").
  rewrite IH by (intros d' Hd'; apply Hall; right; exact Hd').
  rewrite record_zone0, record_continuous.
  destruct (String.eqb (leak_type f) "Sürekli"); cbn [value_dtype orb].
  - now destruct (existsb is_continuous rest).
  - now destruct (existsb is_continuous rest).
Qed.

(** The row of a record in the frame of the records. *)
Lemma frame_of_records (records : list dict) (i : nat) (f : form) (gaz : gas_row) :
  (forall d, In d records -> exists f gaz, d = record_of f gaz) ->
  records !! i = Some (record_of f gaz) ->
  frame_of records !! i
  = Some (scenario_dict f gaz
          ++ zone_result_in_frame (existsb is_continuous records) f gaz).
Proof.
  intros Hall Hi. unfold frame_of.
  rewrite list_lookup_fmap, Hi. cbn [fmap option_fmap option_map]. f_equal.
  rewrite (columns_of_records records Hall)
    by (intros ->; discriminate Hi).
  unfold record_columns_list. cbn [map].
  rewrite (zone0_column_dtype records Hall).
  rewrite scenario_dict_items.
  unfold record_of, zone_result, zone_result_in_frame.
  rewrite scenario_dict_items.
  destruct (String.eqb (leak_type f) "Sürekli"),
    (existsb is_continuous records); reflexivity.
Qed.

Lemma frame_of_length (records : list dict) :
  length (frame_of records) = length records.
Proof. unfold frame_of. apply length_map. Qed.

Lemma frame_of_frame_records (records : list dict) :
  (forall d, In d records -> exists f gaz, d = record_of f gaz) ->
  forall d, In d (frame_of records) -> frame_record d.
Proof.
  intros Hall d Hd.
  apply list_elem_of_In, list_elem_of_lookup_1 in Hd as [i Hi].
  destruct (lookup_lt_is_Some_2 records i) as [r Hr].
  { rewrite <- frame_of_length. eapply lookup_lt_Some. exact Hi. }
  destruct (Hall r) as (f & gaz & ->).
  { apply list_elem_of_In. eapply list_elem_of_lookup_2. exact Hr. }
  rewrite (frame_of_records records i f gaz Hall Hr) in Hi.
  injection Hi as <-. eexists _, f, gaz. reflexivity.
Qed.

Lemma cast_object (d : dict) :
  map (fun kv => (fst kv, cast DObject (snd kv))) d = d.
Proof.
  induction d as [|[k v] rest IH]; [reflexivity|].
  cbn [map fst snd]. rewrite IH. now destruct v.
Qed.

(** A row taken out of a frame of scenario records is the row as the frame
    holds it: the name column makes the row a row of objects. *)
Lemma series_frame_record (df : list dict) (d : dict) :
  (forall d, In d df -> frame_record d) ->
  df <> [] -> series df d = d.
Proof.
  intros Hall Hne. unfold series.
  assert (Ht : row_dtype df = DObject).
  { unfold row_dtype.
    rewrite (columns_of_keys df)
      by (try (intros d' Hd'; apply frame_record_keys, Hall, Hd'); exact Hne).
    destruct df as [|d0 rest]; [contradiction|].
    destruct (Hall d0 (or_introl eq_refl)) as (fc & f & gaz & ->).
    reflexivity. }
  rewrite Ht. apply cast_object.
Qed.

Lemma iloc_frame_record (df : list dict) (i : nat) (d : dict) :
  (forall d, In d df -> frame_record d) ->
  df !! i = Some d -> iloc df i = Ok d.
Proof.
  intros Hall Hi. unfold iloc. rewrite Hi. f_equal.
  apply series_frame_record; [exact Hall | intros ->; discriminate Hi].
Qed.

Lemma iterrows_frame_records (df : list dict) :
  (forall d, In d df -> frame_record d) -> iterrows df = df.
Proof.
  intros Hall. destruct df as [|d0 rest]; [reflexivity|].
  unfold iterrows.
  rewrite (map_ext (series (d0 :: rest)) (fun d => d)); [apply map_id|].
  intros d. apply series_frame_record; [exact Hall | discriminate].
Qed.

Lemma record_is_frame_record (f : form) (gaz : gas_row) :
  frame_record (record_of f gaz).
Proof. exists false, f, gaz. reflexivity. Qed.

Lemma existsb_pointwise {A B} (p : A -> bool) (q : B -> bool) (l : list A) :
  forall l' : list B,
    length l = length l' ->
    (forall i x y, l !! i = Some x -> l' !! i = Some y -> p x = q y) ->
    existsb p l = existsb q l'.
Proof.
  induction l as [|x rest IH]; intros [|y rest'] Hlen Hpq;
    try discriminate Hlen; [reflexivity|].
  cbn [existsb]. rewrite (Hpq 0%nat x y eq_refl eq_refl). f_equal.
  apply IH; [now injection Hlen|].
  intros i x' y' Hx Hy. exact (Hpq (S i) x' y' Hx Hy).
Qed.

(** The results loop on scenario rows, and the frame of its results. *)
Lemma results_loop_frame (gazlar : list gas_row) (rows : list nat) (w : world) :
  (forall a, In a rows -> scenario_at gazlar w a) ->
  exists results w' df,
    results_loop rows [] w = (Ok results, w')
    /\ DataFrame results w' = (Ok df, w')
    /\ length results = length rows
    /\ length df = length rows
    /\ heap_kept w w'
    /\ session_scenarios w' = session_scenarios w
    /\ files w' = files w
    /\ ui w' = ui w
    /\ calls w' = calls w ++ rows
    /\ (forall d, In d df -> frame_record d)
    /\ forall i row, rows !! i = Some row ->
         exists f gaz m,
           heap w !! row = Some (scenario_dict f gaz)
           /\ results !! i = Some m
           /\ heap w' !! m = Some (scenario_dict f gaz ++ zone_result f gaz)
           /\ df !! i = Some (scenario_dict f gaz
                              ++ zone_result_in_frame (float_zone0 w rows) f gaz).
Proof.
  intros Hs.
  destruct (results_loop_scenarios gazlar rows w [] Hs)
    as (fresh & w' & E & Hlen & Hk & Hscen & Hf & Hu & Hc & Hrec).
  cbn [app] in E.
  destruct (DataFrame_reads w' fresh) as (records & Edf & Hrlen & Hrecords).
  { intros i m Hm.
    destruct (lookup_lt_is_Some_2 rows i) as [row Hrow].
    { rewrite <- Hlen. eapply lookup_lt_Some. exact Hm. }
    destruct (Hrec i row Hrow) as (f & gaz & m' & _ & Hm' & Hheap).
    rewrite Hm in Hm'. injection Hm' as <-. eauto. }
  assert (Hat : forall i row, rows !! i = Some row ->
            exists f gaz m,
              heap w !! row = Some (scenario_dict f gaz)
              /\ fresh !! i = Some m
              /\ heap w' !! m = Some (record_of f gaz)
              /\ records !! i = Some (record_of f gaz)).
  { intros i row Hrow.
    destruct (Hrec i row Hrow) as (f & gaz & m & H0 & Hm & Hheap).
    exists f, gaz, m. split; [exact H0|]. split; [exact Hm|].
    split; [exact Hheap|]. rewrite (Hrecords i m Hm). exact Hheap. }
  assert (Hall : forall d, In d records -> exists f gaz, d = record_of f gaz).
  { intros d Hd.
    apply list_elem_of_In, list_elem_of_lookup_1 in Hd as [i Hi].
    destruct (lookup_lt_is_Some_2 rows i) as [row Hrow].
    { rewrite <- Hlen, <- Hrlen. eapply lookup_lt_Some. exact Hi. }
    destruct (Hat i row Hrow) as (f & gaz & m & _ & _ & _ & Hr).
    rewrite Hi in Hr. injection Hr as ->. eauto. }
  assert (Hfc : existsb is_continuous records = float_zone0 w rows).
  { unfold float_zone0. apply existsb_pointwise; [congruence|].
    intros i x row Hx Hrow.
    destruct (Hat i row Hrow) as (f & gaz & m & H0 & _ & _ & Hr).
    rewrite Hx in Hr. injection Hr as ->.
    unfold continuous_at. rewrite H0.
    now rewrite record_continuous, scenario_continuous. }
  exists fresh, w', (frame_of records).
  split; [exact E|]. split; [exact Edf|]. split; [exact Hlen|].
  split; [rewrite frame_of_length; congruence|].
  split; [exact Hk|]. split; [exact Hscen|]. split; [exact Hf|].
  split; [exact Hu|]. split; [exact Hc|].
  split; [now apply frame_of_frame_records|].
  intros i row Hrow.
  destruct (Hat i row Hrow) as (f & gaz & m & H0 & Hm & Hheap & Hr).
  exists f, gaz, m.
  split; [exact H0|]. split; [exact Hm|]. split; [exact Hheap|].
  rewrite <- Hfc. now apply frame_of_records.
Qed.

(** ** What the rest of a run leaves alone *)

Lemma quiet_refl (w : world) : quiet w w.
Proof. repeat split; auto. Qed.

Lemma quiet_trans (w1 w2 w3 : world) : quiet w1 w2 -> quiet w2 w3 -> quiet w1 w3.
Proof.
  intros (H1 & C1 & S1) (H2 & C2 & S2).
  split; [congruence|]. split; [congruence|].
  destruct S2 as [S2|S2]; [rewrite S2; exact S1 | right; exact S2].
Qed.

Lemma keeps_bind {A B} (m : M A) (K : A -> M B) :
  keeps_objects m -> (forall x, keeps_objects (K x)) -> keeps_objects (bind m K).
Proof.
  intros Hm HK w. unfold bind. specialize (Hm w).
  destruct (m w) as [[x|e] w1]; cbn [snd] in *.
  - eapply quiet_trans; [exact Hm | apply HK].
  - exact Hm.
Qed.

Lemma keeps_ret {A} (x : A) : keeps_objects (ret x).
Proof. intros w. apply quiet_refl. Qed.

Lemma keeps_raise {A} (e : exn) : keeps_objects (@raise A e).
Proof. intros w. apply quiet_refl. Qed.

Lemma keeps_emit (e : event) : keeps_objects (emit e).
Proof. intros w. repeat split; auto. Qed.

Lemma keeps_create_file (p : string) : keeps_objects (create_file p).
Proof. intros w. repeat split; auto. Qed.

Lemma keeps_remove_file (p : string) : keeps_objects (remove_file p).
Proof.
  intros w. unfold remove_file.
  destruct (existsb (String.eqb p) (files w)); repeat split; auto.
Qed.

Lemma keeps_clear : keeps_objects (set_scenarios []).
Proof. intros w. repeat split; auto. Qed.

Lemma keeps_deref (a : nat) : keeps_objects (deref a).
Proof. intros w. unfold deref. destruct (heap w !! a); apply quiet_refl. Qed.

Lemma keeps_column (d : dict) (k : string) : keeps_objects (column d k).
Proof. intros w. unfold column. destruct (dict_get d k); apply quiet_refl. Qed.

Lemma keeps_external (env : environment) (st : pdf_stage) (e : exn) :
  keeps_objects (external env st e).
Proof.
  intros w. unfold external.
  destruct (fail_at env) as [st'|]; [destruct (pdf_stage_eqb st st')|];
    apply quiet_refl.
Qed.

Lemma keeps_lift {A} (o : outcome A) : keeps_objects (lift o).
Proof. intros w. apply quiet_refl. Qed.

Lemma keeps_records_of (l : list nat) : keeps_objects (records_of l).
Proof.
  induction l as [|a rest IH]; cbn [records_of].
  - apply keeps_ret.
  - apply keeps_bind; [apply keeps_deref | intros d].
    apply keeps_bind; [exact IH | intros ds]. apply keeps_ret.
Qed.

Lemma keeps_DataFrame (l : list nat) : keeps_objects (DataFrame l).
Proof.
  apply keeps_bind; [apply keeps_records_of | intros records; apply keeps_ret].
Qed.

Lemma present_keeps (inp : inputs) (results : list nat) :
  keeps_objects (present inp results).
Proof.
  unfold present, pdf_button_handler, create_pdf_report, plot_zones.
  repeat first
    [ apply keeps_ret | apply keeps_raise | apply keeps_emit
    | apply keeps_create_file | apply keeps_remove_file | apply keeps_clear
    | apply keeps_column | apply keeps_external | apply keeps_DataFrame
    | apply keeps_lift
    | apply keeps_bind; [| intros ?]
    | match goal with
      | |- keeps_objects (if ?c then _ else _) => destruct c
      end ].
Qed.

(** ** The invariant of the session *)

Lemma session_ok_quiet (gazlar : list gas_row) (w w' : world) :
  session_ok gazlar w -> quiet w w' -> session_ok gazlar w'.
Proof.
  intros [Hs Hc] (Hh & Hcalls & Hscen).
  assert (Hat : forall a, scenario_at gazlar w a -> scenario_at gazlar w' a).
  { intros a (f & gaz & H). exists f, gaz. now rewrite Hh. }
  split.
  - intros a Ha. destruct Hscen as [E|E]; rewrite E in Ha; [auto | destruct Ha].
  - intros a Ha. rewrite Hcalls in Ha. auto.
Qed.

Lemma results_section_ok (gazlar : list gas_row) (inp : inputs) (w : world) :
  session_ok gazlar w -> session_ok gazlar (snd (results_section inp w)).
Proof.
  intros [Hs Hc]. unfold results_section. unfold bind at 1. cbn [get_scenarios].
  remember (session_scenarios w) as rows eqn:Erows.
  destruct rows as [|row rest].
  { split; cbn [ret snd]; [rewrite <- Erows; exact Hs | exact Hc]. }
  destruct (results_loop_scenarios gazlar (row :: rest) w [] Hs)
    as (fresh & w' & E & _ & Hk & Hscen & _ & _ & Hcalls & _).
  unfold bind. rewrite E. cbn [app].
  apply (session_ok_quiet gazlar w'); [|apply present_keeps].
  split.
  - intros a Ha. apply (scenario_at_kept gazlar w); [exact Hk|].
    apply Hs. now rewrite Erows, <- Hscen.
  - intros a Ha. rewrite Hcalls in Ha. apply (scenario_at_kept gazlar w); [exact Hk|].
    apply in_app_or in Ha as [Ha|Ha]; auto.
Qed.

Lemma submit_handler_ok (gazlar : list gas_row) (f : form) (w : world) :
  session_ok gazlar w -> form_in_range f = true ->
  session_ok gazlar (snd (submit_handler gazlar f w)).
Proof.
  intros [Hs Hc] Hf. unfold submit_handler. rewrite bind_lift.
  destruct (lookup_gas gazlar (gaz_adi f)) as [gaz|e] eqn:E; [|split; assumption].
  apply lookup_gas_found in E as [Hin Hname].
  cbn.
  assert (Hk : forall a, scenario_at gazlar w a ->
     scenario_at gazlar
       {| heap := heap w ++ [scenario_dict f gaz];
          session_scenarios := session_scenarios w ++ [length (heap w)];
          files := files w; ui := ui w ++ [EvSuccess (scenario_name f ++ " eklendi!")];
          calls := calls w |} a).
  { intros a (f0 & gaz0 & H0 & Hr). exists f0, gaz0. cbn [heap].
    split; [now apply lookup_app_l_Some | exact Hr]. }
  split; cbn [session_scenarios calls].
  - intros a Ha. apply in_app_or in Ha as [Ha|[<-|[]]]; [auto|].
    exists f, gaz. cbn [heap].
    split; [apply list_lookup_middle; reflexivity|].
    split; [exact Hin|]. split; [exact Hname|].
    now apply form_in_range_ventilation.
  - intros a Ha. auto.
Qed.

Lemma script_ok (gazlar : list gas_row) (inp : inputs) (w : world) :
  session_ok gazlar w -> form_in_range (widgets inp) = true ->
  session_ok gazlar (snd (script gazlar inp w)).
Proof.
  intros Hok Hf. unfold script. unfold bind at 1.
  destruct (submit inp).
  - pose proof (submit_handler_ok gazlar (widgets inp) w Hok Hf) as H1.
    destruct (submit_handler gazlar (widgets inp) w) as [[[]|e] w1]; cbn [snd] in *.
    + now apply results_section_ok.
    + exact H1.
  - cbn [ret]. now apply results_section_ok.
Qed.

Lemma reachable_ok (gazlar : list gas_row) (w : world) :
  reachable gazlar w -> session_ok gazlar w.
Proof.
  induction 1 as [|w inp _ IH Hf].
  - split; intros a [].
  - now apply script_ok.
Qed.

(** C5. A gas name that is not in the table makes the lookup fail (Python's
    [IndexError] from [.iloc[0]]; the specification calls it NotFoundError),
    and the run stops there: the outcome of the script is that exception and
    the world is exactly what it was, so no scenario has been appended, no
    dict created and the calculator has not been called.  And in a reachable
    world no stored scenario, and no row the calculator was ever called with,
    carries such a name. *)
Theorem unknown_gas_rejected (gazlar : list gas_row) (inp : inputs) (w : world) :
  submit inp = true ->
  (forall g, In g gazlar -> isim g <> gaz_adi (widgets inp)) ->
  lookup_gas gazlar (gaz_adi (widgets inp)) = Raise IndexError
  /\ submit_handler gazlar (widgets inp) w = (Raise IndexError, w)
  /\ script gazlar inp w = (Raise IndexError, w)
  /\ (reachable gazlar w ->
      forall a d, In a (session_scenarios w ++ calls w) ->
                  heap w !! a = Some d ->
                  dict_get d "Gaz" <> Some (VStr (gaz_adi (widgets inp)))).
Proof.
  intros Hs Hno.
  pose proof (lookup_gas_unknown gazlar _ Hno) as E.
  assert (Eh : submit_handler gazlar (widgets inp) w = (Raise IndexError, w)).
  { unfold submit_handler. rewrite bind_lift, E. reflexivity. }
  split; [exact E|]. split; [exact Eh|]. split.
  - unfold script. rewrite Hs. unfold bind at 1. now rewrite Eh.
  - intros Hr a d Ha Hd Hgaz.
    destruct (reachable_ok gazlar w Hr) as [Hscen Hcalls].
    assert (Hat : scenario_at gazlar w a)
      by (apply in_app_or in Ha as [Ha|Ha]; auto).
    destruct Hat as (f & gaz & Hrow & Hin & Hname & _).
    rewrite Hrow in Hd. injection Hd as <-.
    rewrite scenario_dict_items in Hgaz. cbn in Hgaz. injection Hgaz as Hgaz.
    apply (Hno gaz Hin). congruence.
Qed.

Lemma unknown_gas_rejected_witness :
  let inp := {| widgets := with_gas "Ksenon" sample_form; submit := true;
                pdf_button := false; clear_button := false;
                env := {| tmp_name := "/tmp/tmpk3x1.pdf"; fail_at := None |} |}%string in
  script sample_gazlar inp sample_world = (Raise IndexError, sample_world).
Proof.
  intros inp.
  refine (proj1 (proj2 (proj2 (unknown_gas_rejected sample_gazlar inp sample_world
                                 eq_refl _)))).
  intros g [<-|[<-|[]]]; discriminate.
Defined.

(** C10. In every reachable world the results loop succeeds, and for every
    stored scenario the record it builds, [{**row, **res}], is that scenario,
    field for field and in order, followed by exactly the four result fields
    of the calculator: the two key sets are disjoint, so the merge overwrites
    nothing.  The frame made of the records shows every scenario field as it
    is stored and the same four result fields, the [0] of zone 0 as [0.0]
    when the column holds a float.  The loop leaves the session list and
    every stored dict as they were. *)
Theorem results_extend_scenarios (gazlar : list gas_row) (w : world) :
  reachable gazlar w ->
  exists results w' df,
    results_loop (session_scenarios w) [] w = (Ok results, w')
    /\ DataFrame results w' = (Ok df, w')
    /\ length results = length (session_scenarios w)
    /\ length df = length (session_scenarios w)
    /\ (forall i row, session_scenarios w !! i = Some row ->
          exists f gaz m,
            heap w !! row = Some (scenario_dict f gaz)
            /\ results !! i = Some m
            /\ heap w' !! m = Some (scenario_dict f gaz ++ zone_result f gaz)
            /\ dict_merge (scenario_dict f gaz) (zone_result f gaz)
                 = scenario_dict f gaz ++ zone_result f gaz
            /\ keys (zone_result f gaz)
                 = [ "Zone 0 Yarıçapı (m)"; "Zone 1 Yarıçapı (m)";
                     "Zone 2 Yarıçapı (m)"; "Seyrelme Faktörü (D)" ]%string
            /\ (forall k, In k (keys (scenario_dict f gaz)) ->
                  ~ In k (keys (zone_result f gaz))
                  /\ dict_get (scenario_dict f gaz ++ zone_result f gaz) k
                       = dict_get (scenario_dict f gaz) k)
            /\ df !! i
                 = Some (scenario_dict f gaz
                         ++ zone_result_in_frame
                              (float_zone0 w (session_scenarios w)) f gaz)
            /\ (forall k, k <> "Zone 0 Yarıçapı (m)"%string ->
                  dict_get (zone_result_in_frame
                              (float_zone0 w (session_scenarios w)) f gaz) k
                  = dict_get (zone_result f gaz) k)
            /\ (dict_get (zone_result_in_frame
                            (float_zone0 w (session_scenarios w)) f gaz)
                         "Zone 0 Yarıçapı (m)"
                  = dict_get (zone_result f gaz) "Zone 0 Yarıçapı (m)"
                \/ (dict_get (zone_result f gaz) "Zone 0 Yarıçapı (m)"
                      = Some (VInt 0)
                    /\ dict_get (zone_result_in_frame
                                   (float_zone0 w (session_scenarios w)) f gaz)
                                "Zone 0 Yarıçapı (m)"
                       = Some (VFloat F.zero))))
    /\ session_scenarios w' = session_scenarios w
    /\ (forall a d, heap w !! a = Some d -> heap w' !! a = Some d).
Proof.
  intros Hr. destruct (reachable_ok gazlar w Hr) as [Hs _].
  destruct (results_loop_frame gazlar (session_scenarios w) w Hs)
    as (results & w' & df & E & Edf & Hlen & Hdflen & Hk & Hscen & _ & _ & _ & _
        & Hrec).
  exists results, w', df.
  split; [exact E|]. split; [exact Edf|]. split; [exact Hlen|].
  split; [exact Hdflen|].
  split; [|split; [exact Hscen | intros a d; apply heap_kept_lookup; exact Hk]].
  intros i row Hrow.
  destruct (Hrec i row Hrow) as (f & gaz & m & H0 & Hm & Hheap & Hdf).
  exists f, gaz, m.
  split; [exact H0|]. split; [exact Hm|]. split; [exact Hheap|].
  split; [apply merge_scenario_result|]. split; [reflexivity|].
  split.
  { intros k Hin. split; [|now apply dict_get_app_l].
    rewrite scenario_dict_items in Hin. cbn in Hin. cbn.
    intuition (subst; discriminate). }
  split; [exact Hdf|].
  unfold zone_result, zone_result_in_frame. split.
  - intros k Hne. cbn [dict_get].
    destruct (String.eqb_spec "Zone 0 Yarıçapı (m)" k) as [<-|_];
      [contradiction | reflexivity].
  - destruct (String.eqb (leak_type f) "Sürekli"),
      (float_zone0 w (session_scenarios w));
      first [left; reflexivity | right; split; reflexivity].
Qed.

Lemma results_extend_scenarios_witness :
  exists results w' df,
    results_loop (session_scenarios sample_world) [] sample_world = (Ok results, w')
    /\ DataFrame results w' = (Ok df, w')
    /\ length results = 1%nat
    /\ length df = 1%nat
    /\ session_scenarios w' = [0%nat].
Proof.
  assert (Hr : reachable sample_gazlar sample_world).
  { exact (reach_run sample_gazlar initial_world
             (sample_inputs true false false None)
             (reach_init sample_gazlar) eq_refl). }
  destruct (results_extend_scenarios sample_gazlar sample_world Hr)
    as (results & w' & df & E & Edf & Hlen & Hdflen & _ & Hs & _).
  exists results, w', df. repeat split; assumption.
Defined.

(** ** The temporary file of the PDF download *)

(** C9.  The handler removes the temporary file in its last statement only,
    so the cleanup is missed whenever a call after the creation of the file
    raises.  A scenario is stored and no file exists; the PDF button is
    pressed and [pdf.output], [open] or the read raises: the run ends with
    that exception and the temporary file is still on disk. *)
Lemma pdf_output_failure_leaves_file :
  let run fault :=
    script sample_gazlar (sample_inputs false true false (Some fault)) sample_world in
  files sample_world = []
  /\ fst (run AtOutput) = Raise PdfError
  /\ files (snd (run AtOutput)) = ["/tmp/tmpk3x1.pdf"%string]
  /\ fst (run AtOpen) = Raise OSError
  /\ files (snd (run AtOpen)) = ["/tmp/tmpk3x1.pdf"%string]
  /\ fst (run AtRead) = Raise OSError
  /\ files (snd (run AtRead)) = ["/tmp/tmpk3x1.pdf"%string].
Proof. vm_compute. repeat split. Qed.

(** ** The step lookup: every tier, and the default *)

Lemma ltb_above (t t' D : F.float) :
  (t <? D)%F = true -> (t' <=? t)%F = true -> (D <=? t')%F = false.
Proof.
  intros Hlt Hle. destruct (D <=? t')%F eqn:E; [|reflexivity].
  pose proof (leb_trans D t' t E Hle) as H.
  rewrite (ltb_not_leb t D Hlt) in H. discriminate H.
Qed.

Lemma leb_inf (D : F.float) : D <> S754_nan -> (D <=? F.inf)%F = true.
Proof.
  intros Hn. destruct D as [s|s| |s m e]; try destruct s; try reflexivity.
  now destruct Hn.
Qed.

Lemma leb_not_nan (x y : F.float) : (x <=? y)%F = true -> x <> S754_nan /\ y <> S754_nan.
Proof.
  intros H. split; intros ->; [|destruct x]; discriminate H.
Qed.

Lemma ltb_not_nan (x y : F.float) : (x <? y)%F = true -> x <> S754_nan /\ y <> S754_nan.
Proof.
  intros H. split; intros ->; [|destruct x]; discriminate H.
Qed.

Lemma scan_table_none (D : F.float) :
  scan_rows D ZONE_RADIUS_TABLE = None <-> D = S754_nan.
Proof.
  split.
  - intros H. destruct D as [s|s| |s m e]; try reflexivity; exfalso;
      revert H; unfold ZONE_RADIUS_TABLE, scan_rows; cbn [D_max radius];
      rewrite leb_inf by discriminate;
      repeat match goal with
             | |- context [if ?c then _ else _] => destruct c
             end; discriminate.
  - intros ->. reflexivity.
Qed.

(** X1. The three upper tiers of the lookup: [0.1 < D <= 1] gives 3.0,
    [1 < D <= 10] gives 5.0, and every [D > 10], infinity included, gives
    8.0. *)
Theorem get_zone_radius_upper_tiers (D : F.float) :
  ((Lit.f0_1 <? D)%F = true -> (D <=? Lit.f1_0)%F = true ->
     get_zone_radius D = Lit.f3_0)
  /\ ((Lit.f1_0 <? D)%F = true -> (D <=? Lit.f10_0)%F = true ->
     get_zone_radius D = Lit.f5_0)
  /\ ((Lit.f10_0 <? D)%F = true -> get_zone_radius D = Lit.f8_0).
Proof.
  unfold get_zone_radius, ZONE_RADIUS_TABLE, scan_rows; cbn [D_max radius].
  split; [|split].
  - intros Hlt Hle.
    rewrite (ltb_above Lit.f0_1 Lit.f0_01 D Hlt eq_refl).
    rewrite (ltb_not_leb _ _ Hlt), Hle. reflexivity.
  - intros Hlt Hle.
    rewrite (ltb_above Lit.f1_0 Lit.f0_01 D Hlt eq_refl).
    rewrite (ltb_above Lit.f1_0 Lit.f0_1 D Hlt eq_refl).
    rewrite (ltb_not_leb _ _ Hlt), Hle. reflexivity.
  - intros Hlt.
    rewrite (ltb_above Lit.f10_0 Lit.f0_01 D Hlt eq_refl).
    rewrite (ltb_above Lit.f10_0 Lit.f0_1 D Hlt eq_refl).
    rewrite (ltb_above Lit.f10_0 Lit.f1_0 D Hlt eq_refl).
    rewrite (ltb_not_leb _ _ Hlt).
    rewrite (leb_inf D (proj2 (ltb_not_nan _ _ Hlt))). reflexivity.
Qed.

Lemma get_zone_radius_upper_tiers_witness :
  get_zone_radius (F.dec 5 10) = Lit.f3_0
  /\ get_zone_radius (F.dec 5 1) = Lit.f5_0
  /\ get_zone_radius F.inf = Lit.f8_0.
Proof.
  split; [|split].
  - exact (proj1 (get_zone_radius_upper_tiers (F.dec 5 10)) eq_refl eq_refl).
  - exact (proj1 (proj2 (get_zone_radius_upper_tiers (F.dec 5 1))) eq_refl eq_refl).
  - exact (proj2 (proj2 (get_zone_radius_upper_tiers F.inf)) eq_refl).
Defined.

(** X2. The loop falls through to [return 0.5] exactly when [D] is NaN: the
    infinite threshold of the last row catches every other float, and a NaN
    fails every comparison.  So a NaN dilution factor gets the smallest
    radius. *)
Theorem default_radius_only_for_nan (D : F.float) :
  (scan_rows D ZONE_RADIUS_TABLE = None <-> D = S754_nan)
  /\ get_zone_radius S754_nan = Lit.f0_5
  /\ (D <> S754_nan ->
      exists row, In row ZONE_RADIUS_TABLE /\ (D <=? D_max row)%F = true
                  /\ get_zone_radius D = radius row).
Proof.
  split; [apply scan_table_none|]. split; [reflexivity|].
  intros Hn. pose proof (leb_inf D Hn) as Hinf.
  unfold get_zone_radius, ZONE_RADIUS_TABLE, scan_rows; cbn [D_max radius].
  destruct (D <=? Lit.f0_01)%F eqn:E1;
    [eexists; split; [left; reflexivity|]; cbn; auto|].
  destruct (D <=? Lit.f0_1)%F eqn:E2;
    [eexists; split; [right; left; reflexivity|]; cbn; auto|].
  destruct (D <=? Lit.f1_0)%F eqn:E3;
    [eexists; split; [do 2 right; left; reflexivity|]; cbn; auto|].
  destruct (D <=? Lit.f10_0)%F eqn:E4;
    [eexists; split; [do 3 right; left; reflexivity|]; cbn; auto|].
  rewrite Hinf. eexists; split; [do 4 right; left; reflexivity|]; cbn; auto.
Qed.

Lemma default_radius_only_for_nan_witness :
  exists row, In row ZONE_RADIUS_TABLE /\ (F.dec 2 1 <=? D_max row)%F = true
              /\ get_zone_radius (F.dec 2 1) = radius row.
Proof.
  refine (proj2 (proj2 (default_radius_only_for_nan (F.dec 2 1))) _).
  discriminate.
Defined.

(** ** First-match lookup is monotone on any ascending table *)

Lemma scan_rows_in (D : F.float) (rows : list table_row) (r : F.float) :
  scan_rows D rows = Some r -> exists row, In row rows /\ r = radius row.
Proof.
  induction rows as [|row rest IH]; [discriminate|]. cbn [scan_rows].
  destruct (D <=? D_max row)%F.
  - intros [= <-]. exists row. split; [left; reflexivity | reflexivity].
  - intros H. destruct (IH H) as (row' & Hin & ->). exists row'. split; [right|]; auto.
Qed.

Lemma scan_rows_monotone (rows : list table_row) (D1 D2 r2 : F.float) :
  radii_ascend rows = true ->
  (D1 <=? D2)%F = true ->
  scan_rows D2 rows = Some r2 ->
  exists r1, scan_rows D1 rows = Some r1 /\ (r1 <=? r2)%F = true.
Proof.
  intros Hasc Hle. induction rows as [|row rest IH]; [discriminate|].
  cbn [radii_ascend] in Hasc. apply andb_true_iff in Hasc as [Hasc Hrest].
  apply andb_true_iff in Hasc as [Hself Hlater].
  cbn [scan_rows].
  destruct (D1 <=? D_max row)%F eqn:E1.
  - destruct (D2 <=? D_max row)%F eqn:E2.
    + intros [= <-]. exists (radius row). split; [reflexivity | exact Hself].
    + intros H2. destruct (scan_rows_in D2 rest r2 H2) as (row' & Hin & ->).
      exists (radius row). split; [reflexivity|].
      rewrite forallb_forall in Hlater. apply Hlater. exact Hin.
  - destruct (D2 <=? D_max row)%F eqn:E2.
    + rewrite (leb_trans D1 D2 _ Hle E2) in E1. discriminate E1.
    + intros H2. apply IH; assumption.
Qed.

Lemma lookup_monotone (D1 D2 : F.float) :
  (D1 <=? D2)%F = true ->
  In (get_zone_radius D1, get_zone_radius D2)
     (list_prod [Lit.f0_5; Lit.f1_0; Lit.f3_0; Lit.f5_0; Lit.f8_0]
                [Lit.f0_5; Lit.f1_0; Lit.f3_0; Lit.f5_0; Lit.f8_0])
  /\ (get_zone_radius D1 <=? get_zone_radius D2)%F = true.
Proof.
  intros Hle. split.
  - apply in_prod; apply get_zone_radius_cases.
  - unfold get_zone_radius.
    destruct (scan_rows D2 ZONE_RADIUS_TABLE) as [r2|] eqn:E2.
    + destruct (scan_rows_monotone ZONE_RADIUS_TABLE D1 D2 r2 eq_refl Hle E2)
        as (r1 & -> & Hr). exact Hr.
    + apply scan_table_none in E2. subst D2.
      destruct (leb_not_nan _ _ Hle) as [_ H]. now destruct H.
Qed.

(** ** Bounds and monotonicity of the radii *)

Lemma within_bounds_all (base : F.float) (iic iib lel_low small hot high_p : bool) :
  In base [Lit.f0_5; Lit.f1_0; Lit.f3_0; Lit.f5_0; Lit.f8_0] ->
  within_bounds (correct base iic iib lel_low small hot high_p) = true.
Proof.
  intros [<-|[<-|[<-|[<-|[<-|[]]]]]];
    destruct iic, iib, lel_low, small, hot, high_p; vm_compute; reflexivity.
Qed.

(** X3. Whatever floats a scenario row holds (NaN and infinities included),
    as long as the ventilation rate is not zero the radii returned are
    bounded: zone 2 lies in [0.4, 12.2] and zone 1 in [0.28, 8.54]; zone 0 is
    a float in [0.12, 3.66] for the leak type "Sürekli" and the integer 0 for
    any other leak type. *)
Theorem zone_radii_bounded (w : world) (a : nat) (f : form) (gaz : gas_row) :
  heap w !! a = Some (scenario_dict f gaz) ->
  (ventilation_rate f =? F.zero)%F = false ->
  exists z0 z1 z2 D,
    calculate_zones a w =
      alloc [ ("Zone 0 Yarıçapı (m)", z0);
              ("Zone 1 Yarıçapı (m)", VFloat z1);
              ("Zone 2 Yarıçapı (m)", VFloat z2);
              ("Seyrelme Faktörü (D)", VFloat D) ]%string w
    /\ (F.dec 40 100 <=? z2)%F = true /\ (z2 <=? F.dec 122 10)%F = true
    /\ (F.dec 28 100 <=? z1)%F = true /\ (z1 <=? F.dec 854 100)%F = true
    /\ (leak_type f = "Sürekli"%string ->
        exists x, z0 = VFloat x
                  /\ (F.dec 12 100 <=? x)%F = true /\ (x <=? F.dec 366 100)%F = true)
    /\ (leak_type f <> "Sürekli"%string -> z0 = VInt 0).
Proof.
  intros H Hv.
  rewrite (calculate_zones_scenario w a f gaz H), Hv.
  pose proof (within_bounds_all (get_zone_radius (dilution f))
                (String.eqb (grup gaz) "IIC") (String.eqb (grup gaz) "IIB")
                (LEL gaz <? F.of_Z 2)%F (volume f <? F.of_Z 10)%F
                (F.of_Z 40 <? temp f)%F (Lit.f1_2 <? pressure f)%F
                (get_zone_radius_cases (dilution f))) as Hb.
  fold (corrected_radius f gaz) in Hb. unfold within_bounds in Hb.
  repeat (apply andb_true_iff in Hb as [Hb ?]).
  eexists _, _, _, _. split; [reflexivity|].
  repeat (split; [assumption|]).
  split.
  - intros ->. eexists. split; [reflexivity|]. split; assumption.
  - intros Hne. destruct (String.eqb_spec (leak_type f) "Sürekli"); [contradiction|reflexivity].
Qed.

Lemma zone_radii_bounded_witness :
  exists z0 z1 z2 D,
    calculate_zones 0 sample_world =
      alloc [ ("Zone 0 Yarıçapı (m)", z0);
              ("Zone 1 Yarıçapı (m)", VFloat z1);
              ("Zone 2 Yarıçapı (m)", VFloat z2);
              ("Seyrelme Faktörü (D)", VFloat D) ]%string sample_world
    /\ (F.dec 40 100 <=? z2)%F = true /\ (z2 <=? F.dec 122 10)%F = true.
Proof.
  destruct (zone_radii_bounded sample_world 0%nat sample_form sample_gas eq_refl eq_refl)
    as (z0 & z1 & z2 & D & E & H1 & H2 & _).
  exists z0, z1, z2, D. repeat split; assumption.
Defined.

Lemma radii_leb_all (b1 b2 : F.float) (iic iib lel_low small hot high_p : bool) :
  In (b1, b2)
     (list_prod [Lit.f0_5; Lit.f1_0; Lit.f3_0; Lit.f5_0; Lit.f8_0]
                [Lit.f0_5; Lit.f1_0; Lit.f3_0; Lit.f5_0; Lit.f8_0]) ->
  (b1 <=? b2)%F = true ->
  radii_leb (correct b1 iic iib lel_low small hot high_p)
            (correct b2 iic iib lel_low small hot high_p) = true.
Proof.
  cbn [list_prod map app In].
  intros Hin Hle.
  repeat (destruct Hin as [[= <- <-]|Hin];
    [ try discriminate Hle;
      destruct iic, iib, lel_low, small, hot, high_p; vm_compute; reflexivity |]).
  destruct Hin.
Qed.

(** X4. The radii grow with the dilution factor.  Of two scenarios with the
    same gas, leak type, volume, temperature and pressure, the one whose
    leak rate / ventilation rate is not smaller gets zone radii that are not
    smaller, corrections and rounding included. *)
Theorem radii_monotone_in_dilution
    (w1 w2 : world) (a1 a2 : nat) (f1 f2 : form) (gaz : gas_row) :
  heap w1 !! a1 = Some (scenario_dict f1 gaz) ->
  heap w2 !! a2 = Some (scenario_dict f2 gaz) ->
  (ventilation_rate f1 =? F.zero)%F = false ->
  (ventilation_rate f2 =? F.zero)%F = false ->
  leak_type f1 = leak_type f2 -> volume f1 = volume f2 ->
  temp f1 = temp f2 -> pressure f1 = pressure f2 ->
  (dilution f1 <=? dilution f2)%F = true ->
  exists d1 d2 x0 x1 x2 y0 y1 y2,
    calculate_zones a1 w1 = alloc d1 w1
    /\ calculate_zones a2 w2 = alloc d2 w2
    /\ dict_get d1 "Zone 0 Yarıçapı (m)" = Some x0
    /\ dict_get d2 "Zone 0 Yarıçapı (m)" = Some y0
    /\ dict_get d1 "Zone 1 Yarıçapı (m)" = Some x1
    /\ dict_get d2 "Zone 1 Yarıçapı (m)" = Some y1
    /\ dict_get d1 "Zone 2 Yarıçapı (m)" = Some x2
    /\ dict_get d2 "Zone 2 Yarıçapı (m)" = Some y2
    /\ value_leb x0 y0 = true /\ value_leb x1 y1 = true /\ value_leb x2 y2 = true.
Proof.
  intros H1 H2 Hv1 Hv2 Hk Hvol Ht Hp Hle.
  rewrite (calculate_zones_scenario w1 a1 f1 gaz H1), Hv1.
  rewrite (calculate_zones_scenario w2 a2 f2 gaz H2), Hv2.
  destruct (lookup_monotone _ _ Hle) as [Hin Hr].
  pose proof (radii_leb_all _ _
                (String.eqb (grup gaz) "IIC") (String.eqb (grup gaz) "IIB")
                (LEL gaz <? F.of_Z 2)%F (volume f2 <? F.of_Z 10)%F
                (F.of_Z 40 <? temp f2)%F (Lit.f1_2 <? pressure f2)%F Hin Hr) as Hm.
  unfold radii_leb in Hm.
  apply andb_true_iff in Hm as [Hm Hm2]. apply andb_true_iff in Hm as [Hm0 Hm1].
  exists (zone_result f1 gaz), (zone_result f2 gaz).
  unfold zone_result, corrected_radius. rewrite Hk, Hvol, Ht, Hp.
  eexists _, _, _, _, _, _.
  split; [reflexivity|]. split; [reflexivity|].
  do 6 (split; [reflexivity|]).
  split; [|split; assumption].
  destruct (String.eqb (leak_type f2) "Sürekli"); [exact Hm0 | reflexivity].
Qed.

Lemma radii_monotone_in_dilution_witness :
  let f2 := {| gaz_adi := "Metan"; leak_type := "Sürekli";
               leak_rate := F.of_Z 500; leak_duration := F.of_Z 1;
               ventilation_rate := F.of_Z 100; ventilation_type := "Doğal";
               volume := F.of_Z 100; temp := F.of_Z 20; pressure := Lit.f1_0;
               scenario_name := "Senaryo 2"; notes := EmptyString |}%string in
  let w1 := one_row (scenario_dict sample_form sample_gas) in
  let w2 := one_row (scenario_dict f2 sample_gas) in
  exists d1 d2 x2 y2,
    calculate_zones 0 w1 = alloc d1 w1
    /\ calculate_zones 0 w2 = alloc d2 w2
    /\ dict_get d1 "Zone 2 Yarıçapı (m)" = Some x2
    /\ dict_get d2 "Zone 2 Yarıçapı (m)" = Some y2
    /\ value_leb x2 y2 = true.
Proof.
  intros f2 w1 w2.
  destruct (radii_monotone_in_dilution w1 w2 0%nat 0%nat sample_form f2 sample_gas
              eq_refl eq_refl eq_refl eq_refl eq_refl eq_refl eq_refl eq_refl eq_refl)
    as (d1 & d2 & x0 & x1 & x2 & y0 & y1 & y2 & E1 & E2 & _ & _ & _ & _ & G1 & G2 & _ & _ & L).
  exists d1, d2, x2, y2. repeat split; assumption.
Defined.

(** X5. The scenario name, the gas name, the leak duration, the ventilation
    type and the note are never read by the calculator: two rows that agree
    on the leak type, the two rates, volume, temperature, pressure and on the
    group and LEL of their gas get the same outcome, the same result dict or
    the same [ZeroDivisionError]. *)
Theorem unread_fields_do_not_matter
    (w1 w2 : world) (a1 a2 : nat) (f1 f2 : form) (gaz1 gaz2 : gas_row) :
  heap w1 !! a1 = Some (scenario_dict f1 gaz1) ->
  heap w2 !! a2 = Some (scenario_dict f2 gaz2) ->
  leak_type f1 = leak_type f2 -> leak_rate f1 = leak_rate f2 ->
  ventilation_rate f1 = ventilation_rate f2 -> volume f1 = volume f2 ->
  temp f1 = temp f2 -> pressure f1 = pressure f2 ->
  grup gaz1 = grup gaz2 -> LEL gaz1 = LEL gaz2 ->
  (calculate_zones a1 w1 = (Raise ZeroDivisionError, w1)
   /\ calculate_zones a2 w2 = (Raise ZeroDivisionError, w2))
  \/ (exists d, calculate_zones a1 w1 = alloc d w1
                /\ calculate_zones a2 w2 = alloc d w2).
Proof.
  intros H1 H2 Hk Hlr Hvr Hvol Ht Hp Hg Hl.
  rewrite (calculate_zones_scenario w1 a1 f1 gaz1 H1).
  rewrite (calculate_zones_scenario w2 a2 f2 gaz2 H2).
  assert (E : zone_result f1 gaz1 = zone_result f2 gaz2).
  { unfold zone_result, corrected_radius, dilution.
    now rewrite Hk, Hlr, Hvr, Hvol, Ht, Hp, Hg, Hl. }
  rewrite Hvr, E.
  destruct (ventilation_rate f2 =? F.zero)%F; [left | right; eexists]; split; reflexivity.
Qed.

Lemma unread_fields_do_not_matter_witness :
  let f2 := {| gaz_adi := "Metan (kopya)"; leak_type := "Sürekli";
               leak_rate := F.of_Z 10; leak_duration := F.of_Z 24;
               ventilation_rate := F.of_Z 100; ventilation_type := "Mekanik";
               volume := F.of_Z 100; temp := F.of_Z 20; pressure := Lit.f1_0;
               scenario_name := "Senaryo 7"; notes := "gece vardiyası" |}%string in
  let w1 := one_row (scenario_dict sample_form sample_gas) in
  let w2 := one_row (scenario_dict f2 sample_gas) in
  exists d, calculate_zones 0 w1 = alloc d w1 /\ calculate_zones 0 w2 = alloc d w2.
Proof.
  intros f2 w1 w2.
  destruct (unread_fields_do_not_matter w1 w2 0%nat 0%nat sample_form f2
              sample_gas sample_gas eq_refl eq_refl eq_refl eq_refl eq_refl
              eq_refl eq_refl eq_refl eq_refl eq_refl) as [[E _]|H].
  - exfalso. vm_compute in E. discriminate E.
  - exact H.
Defined.

(** ** The calculator on an arbitrary row *)

Lemma py_truediv_cases (a b : value) :
  match py_truediv a b with
  | Ok _ =>
      is_number a = true /\ is_number b = true
      /\ is_zero b = false /\ quotient_overflows a b = false
  | Raise e =>
      (e = TypeError /\ (is_number a = false \/ is_number b = false))
      \/ (e = ZeroDivisionError /\ is_number b = true /\ is_zero b = true)
      \/ (e = OverflowError /\ is_number a = true /\ is_number b = true
          /\ quotient_overflows a b = true)
  end.
Proof.
  destruct a as [s|x|m], b as [t|y|n];
    cbn [py_truediv operand and_then is_zero is_number quotient_overflows
         too_large orb];
    unfold finite_or_overflow;
    try (left; split; [reflexivity | auto; fail]).
  - (* float / float *)
    destruct (y =? F.zero)%F; [right; left; auto | auto].
  - (* float / int *)
    destruct (F.of_Z n); cbn [and_then]; try destruct (n =? 0);
      first [ solve [repeat split; reflexivity]
            | solve [right; left; repeat split; reflexivity]
            | solve [right; right; repeat split; reflexivity] ].
  - (* int / float *)
    destruct (F.of_Z m); cbn [and_then orb]; try destruct (y =? F.zero)%F;
      first [ solve [repeat split; reflexivity]
            | solve [right; left; repeat split; reflexivity]
            | solve [right; right; repeat split; reflexivity] ].
  - (* int / int *)
    destruct (n =? 0); [right; left; auto|].
    destruct (SFdiv F.prec F.emax (exact m) (exact n));
      first [ solve [repeat split; reflexivity]
            | solve [right; right; repeat split; reflexivity] ].
Qed.

Lemma py_lt_number (a b : value) :
  is_number b = true ->
  match py_lt a b with
  | Ok _ => is_number a = true
  | Raise e => e = TypeError /\ is_number a = false
  end.
Proof.
  destruct a as [s|x|n], b as [t|y|m]; cbn; intros H; try discriminate H; auto.
Qed.

Lemma py_gt_number (a b : value) :
  is_number b = true ->
  match py_gt a b with
  | Ok _ => is_number a = true
  | Raise e => e = TypeError /\ is_number a = false
  end.
Proof.
  unfold py_gt.
  destruct a as [s|x|n], b as [t|y|m]; cbn; intros H; try discriminate H; auto.
Qed.

Lemma not_number_str (v : value) : is_number v = false -> exists s, v = VStr s.
Proof. destruct v; try discriminate. eauto. Qed.

Lemma error_cause_incomplete (d : dict) (e : exn) :
  error_cause d e -> row_complete d = false.
Proof.
  unfold row_complete.
  intros [(k & _ & Hk & Hnone)|[(_ & k & s & Hk & Hs)
           |[(_ & b & Hb & _ & Hz)|(_ & a & b & Ha & Hb & _ & _ & Ho)]]].
  - apply andb_false_iff. left. apply andb_false_iff. left.
    apply not_true_is_false. rewrite forallb_forall. intros H.
    specialize (H k Hk). rewrite Hnone in H. discriminate H.
  - apply andb_false_iff. left. apply andb_false_iff. right.
    apply not_true_is_false. rewrite forallb_forall. intros H.
    specialize (H k Hk). rewrite Hs in H. discriminate H.
  - apply andb_false_iff. right. rewrite Hb, Hz.
    destruct (dict_get d "Kaçak Debisi"); reflexivity.
  - apply andb_false_iff. right. rewrite Ha, Hb, Ho. apply andb_false_r.
Qed.

Lemma calculate_zones_outcome (w : world) (row : nat) (d0 : dict) :
  heap w !! row = Some d0 -> call_outcome d0 w (calculate_zones row w).
Proof.
  intros Hrow. unfold calculate_zones.
  (* one read of the row *)
  assert (Hget : forall B (k : string) (K : value -> M B) (P : outcome B * world -> Prop),
             In k read_keys ->
             (forall e, error_cause d0 e -> P (Raise e, w)) ->
             (forall v, dict_get d0 k = Some v -> P (K v w)) ->
             P (bind (getitem row k) K w)).
  { intros B k K P Hk Herr Hok. unfold bind, getitem. rewrite Hrow.
    destruct (dict_get d0 k) as [v|] eqn:E.
    - now apply Hok.
    - apply Herr. left. exists k. auto. }
  assert (Herr : forall e, error_cause d0 e -> call_outcome d0 w (Raise e, w)).
  { intros e He. left. exists e. auto. }
  assert (Hstr : forall k v, In k numeric_keys -> dict_get d0 k = Some v ->
                             is_number v = false -> error_cause d0 TypeError).
  { intros k v Hk Hv Hn. destruct (not_number_str v Hn) as [s ->].
    right. left. split; [reflexivity|]. exists k, s. auto. }
  apply Hget; [cbn; tauto | exact Herr | intros kt Ekt].
  apply Hget; [cbn; tauto | exact Herr | intros lr Elr].
  apply Hget; [cbn; tauto | exact Herr | intros vr Evr].
  rewrite bind_lift.
  pose proof (py_truediv_cases lr vr) as Hdiv.
  destruct (py_truediv lr vr) as [D|e].
  2:{ apply Herr.
      destruct Hdiv as [[-> [Hn|Hn]]|[(-> & Hn & Hz)|(-> & Na & Nb & Ho)]].
      - apply (Hstr "Kaçak Debisi"%string lr); [cbn; tauto | assumption | assumption].
      - apply (Hstr "Havalandırma Debisi"%string vr); [cbn; tauto | assumption | assumption].
      - right. right. left. split; [reflexivity|]. exists vr. auto.
      - right. right. right. split; [reflexivity|]. exists lr, vr. auto. }
  destruct Hdiv as (Nlr & Nvr & Hz & Ho).
  apply Hget; [cbn; tauto | exact Herr | intros g Eg].
  (* the elif reads the group again *)
  assert (Hgrp : forall K : F.float -> M nat,
             (forall r, call_outcome d0 w (K r w)) ->
             call_outcome d0 w
               (bind (if py_eq g (VStr "IIC")
                      then ret (get_zone_radius D * Lit.f1_2)%F
                      else let* g' := getitem row "Grup" in
                           ret (if py_eq g' (VStr "IIB")
                                then (get_zone_radius D * Lit.f1_1)%F
                                else get_zone_radius D)) K w)).
  { intros K HK. destruct (py_eq g (VStr "IIC")).
    - apply HK.
    - unfold bind at 1. erewrite bind_getitem by eassumption. apply HK. }
  apply Hgrp. intros R0.
  apply Hget; [cbn; tauto | exact Herr | intros lel Elel].
  rewrite bind_lift.
  pose proof (py_lt_number lel (VInt 2) eq_refl) as Hlel.
  destruct (py_lt lel (VInt 2)) as [c1|e];
    [| destruct Hlel as [-> Hn]; apply Herr;
       apply (Hstr "LEL"%string lel); [cbn; tauto | assumption | assumption]].
  apply Hget; [cbn; tauto | exact Herr | intros hacim Ehacim].
  rewrite bind_lift.
  pose proof (py_lt_number hacim (VInt 10) eq_refl) as Hhacim.
  destruct (py_lt hacim (VInt 10)) as [c2|e];
    [| destruct Hhacim as [-> Hn]; apply Herr;
       apply (Hstr "Hacim"%string hacim); [cbn; tauto | assumption | assumption]].
  apply Hget; [cbn; tauto | exact Herr | intros sicaklik Esicaklik].
  rewrite bind_lift.
  pose proof (py_gt_number sicaklik (VInt 40) eq_refl) as Hsicaklik.
  destruct (py_gt sicaklik (VInt 40)) as [c3|e];
    [| destruct Hsicaklik as [-> Hn]; apply Herr;
       apply (Hstr "Sıcaklık"%string sicaklik); [cbn; tauto | assumption | assumption]].
  apply Hget; [cbn; tauto | exact Herr | intros basinc Ebasinc].
  rewrite bind_lift.
  pose proof (py_gt_number basinc (VFloat Lit.f1_2) eq_refl) as Hbasinc.
  destruct (py_gt basinc (VFloat Lit.f1_2)) as [c4|e];
    [| destruct Hbasinc as [-> Hn]; apply Herr;
       apply (Hstr "Basınç"%string basinc); [cbn; tauto | assumption | assumption]].
  assert (Hc : row_complete d0 = true).
  { unfold row_complete, read_keys, numeric_keys. cbn [forallb].
    rewrite Ekt, Elr, Evr, Eg, Elel, Ehacim, Esicaklik, Ebasinc.
    rewrite Nlr, Nvr, Hlel, Hhacim, Hsicaklik, Hbasinc, Hz, Ho. reflexivity. }
  destruct (py_eq kt (VStr "Sürekli"));
    (right; eexists; split; [|split; [exact Hc | reflexivity]]);
    eexists _, _, _, _; (split; [reflexivity|]);
    [right; eauto | left; reflexivity].
Qed.

Lemma alloc_inj (d d' : dict) (w : world) : alloc d w = alloc d' w -> d = d'.
Proof.
  unfold alloc. intros [= H]. apply app_inv_head in H. now injection H.
Qed.

(** X6. On any row of strings, floats and ints the calculator returns
    exactly when the row has the eight fields that are read, a number in each
    of the six numeric ones, a ventilation rate that is not zero and two
    rates whose division stays within the floats (no int too large to
    convert, no quotient of ints too large).  What it returns then is a dict
    with the four result keys in order, floats (or the integer 0 for zone 0)
    as values. *)
Theorem calculator_returns_iff_complete (w : world) (row : nat) (d0 : dict) :
  heap w !! row = Some d0 ->
  ((exists d, calculate_zones row w = alloc d w) <-> row_complete d0 = true)
  /\ (forall d, calculate_zones row w = alloc d w -> result_shaped d).
Proof.
  intros Hrow.
  destruct (calculate_zones_outcome w row d0 Hrow)
    as [(e & He & E)|(d & Hd & Hc & E)]; rewrite E.
  - split.
    + rewrite (error_cause_incomplete d0 e He). split; [|discriminate].
      intros [d H]. discriminate H.
    + intros d H. discriminate H.
  - split.
    + split; [intros _; exact Hc | intros _; exists d; reflexivity].
    + intros d' H. apply alloc_inj in H. now subst d'.
Qed.

Lemma calculator_returns_iff_complete_witness :
  (exists d, calculate_zones 0 sample_world = alloc d sample_world)
  /\ forall d, calculate_zones 0 sample_world = alloc d sample_world ->
               result_shaped d.
Proof.
  destruct (calculator_returns_iff_complete sample_world 0%nat
              (scenario_dict sample_form sample_gas) eq_refl) as [Hiff Hshape].
  split; [apply Hiff; reflexivity | exact Hshape].
Defined.

(** X7. Every exception of the calculator has its cause in the row: a
    [KeyError] names a field that is read and that the row lacks, a
    [TypeError] comes with a string in a numeric field, a
    [ZeroDivisionError] with a ventilation rate equal to 0, an
    [OverflowError] with two rates whose division leaves the floats.
    Nothing else is raised, and the world is left as it was. *)
Theorem calculator_errors_have_causes
    (w w' : world) (row : nat) (d0 : dict) (e : exn) :
  heap w !! row = Some d0 ->
  calculate_zones row w = (Raise e, w') ->
  w' = w /\ error_cause d0 e.
Proof.
  intros Hrow E.
  destruct (calculate_zones_outcome w row d0 Hrow)
    as [(e' & He & E')|(d & _ & _ & E')]; rewrite E' in E.
  - injection E as <- <-. auto.
  - discriminate E.
Qed.

Lemma calculator_errors_have_causes_witness :
  let d0 := [ ("Kaçak Tipi", VStr "Sürekli"); ("Kaçak Debisi", VFloat (F.of_Z 10));
              ("Havalandırma Debisi", VStr "yüz") ]%string in
  let d1 := [ ("Kaçak Tipi", VStr "Sürekli"); ("Kaçak Debisi", VInt (10 ^ 400));
              ("Havalandırma Debisi", VFloat (F.of_Z 100)) ]%string in
  error_cause d0 TypeError /\ error_cause d1 OverflowError.
Proof.
  intros d0 d1. split.
  - exact (proj2 (calculator_errors_have_causes (one_row d0) (one_row d0) 0%nat d0
                    TypeError eq_refl eq_refl)).
  - refine (proj2 (calculator_errors_have_causes (one_row d1) (one_row d1) 0%nat d1
                     OverflowError eq_refl _)).
    vm_compute. reflexivity.
Defined.

(** ** What a run may change *)

Lemma heap_kept_same (w w' : world) : heap w' = heap w -> heap_kept w w'.
Proof. intros E. exists []. now rewrite E, app_nil_r. Qed.

Section RunRel.
Variables files_free may_clear : bool.
Local Abbreviation R := (run_rel files_free may_clear).

Lemma run_rel_refl (w : world) : R w w.
Proof. split; [apply heap_kept_refl | split; auto]. Qed.

Lemma run_rel_trans (w1 w2 w3 : world) : R w1 w2 -> R w2 w3 -> R w1 w3.
Proof.
  intros (H1 & F1 & S1) (H2 & F2 & S2).
  split; [eapply heap_kept_trans; eassumption|]. split.
  - intros Hf. rewrite (F2 Hf). auto.
  - destruct S2 as [S2|S2]; [rewrite S2; exact S1 | right; exact S2].
Qed.

Lemma preserves_bind {A B} (m : M A) (K : A -> M B) :
  preserves R m -> (forall x, preserves R (K x)) -> preserves R (bind m K).
Proof.
  intros Hm HK w. unfold bind. specialize (Hm w).
  destruct (m w) as [[x|e] w1]; cbn [snd] in *.
  - eapply run_rel_trans; [exact Hm | apply HK].
  - exact Hm.
Qed.

Lemma preserves_ret {A} (x : A) : preserves R (ret x).
Proof. intros w. apply run_rel_refl. Qed.

Lemma preserves_raise {A} (e : exn) : preserves R (@raise A e).
Proof. intros w. apply run_rel_refl. Qed.

Lemma preserves_emit (e : event) : preserves R (emit e).
Proof. intros w. split; [now apply heap_kept_same | split; auto]. Qed.

Lemma preserves_note_call (row : nat) : preserves R (note_call row).
Proof. intros w. split; [now apply heap_kept_same | split; auto]. Qed.

Lemma preserves_alloc (d : dict) : preserves R (alloc d).
Proof. intros w. split; [exists [d]; reflexivity | split; auto]. Qed.

Lemma preserves_deref (a : nat) : preserves R (deref a).
Proof. intros w. unfold deref. destruct (heap w !! a); apply run_rel_refl. Qed.

Lemma preserves_column (d : dict) (k : string) : preserves R (column d k).
Proof. intros w. unfold column. destruct (dict_get d k); apply run_rel_refl. Qed.

Lemma preserves_external (env : environment) (st : pdf_stage) (e : exn) :
  preserves R (external env st e).
Proof.
  intros w. unfold external.
  destruct (fail_at env) as [st'|]; [destruct (pdf_stage_eqb st st')|];
    apply run_rel_refl.
Qed.

Lemma preserves_calculate_zones (row : nat) : preserves R (calculate_zones row).
Proof.
  intros w.
  destruct (calculate_zones_effect row w) as [(e & E & _)|(d & E & _)]; rewrite E.
  - apply run_rel_refl.
  - apply preserves_alloc.
Qed.

Lemma preserves_lift {A} (o : outcome A) : preserves R (lift o).
Proof. intros w. apply run_rel_refl. Qed.

Lemma preserves_records_of (l : list nat) : preserves R (records_of l).
Proof.
  induction l as [|a rest IH]; cbn [records_of].
  - apply preserves_ret.
  - apply preserves_bind; [apply preserves_deref | intros d].
    apply preserves_bind; [exact IH | intros ds]. apply preserves_ret.
Qed.

Lemma preserves_DataFrame (l : list nat) : preserves R (DataFrame l).
Proof.
  apply preserves_bind; [apply preserves_records_of | intros records].
  apply preserves_ret.
Qed.

Lemma preserves_results_loop (rows results : list nat) :
  preserves R (results_loop rows results).
Proof.
  revert results. induction rows as [|row rest IH]; intros results; cbn [results_loop].
  - apply preserves_ret.
  - apply preserves_bind; [apply preserves_note_call | intros _].
    apply preserves_bind; [apply preserves_calculate_zones | intros res].
    apply preserves_bind; [apply preserves_deref | intros drow].
    apply preserves_bind; [apply preserves_deref | intros dres].
    apply preserves_bind; [apply preserves_alloc | intros merged].
    apply IH.
Qed.

End RunRel.

Lemma preserves_create_file (may_clear : bool) (p : string) :
  preserves (run_rel true may_clear) (create_file p).
Proof. intros w. split; [now apply heap_kept_same | split; [discriminate | auto]]. Qed.

Lemma preserves_remove_file (may_clear : bool) (p : string) :
  preserves (run_rel true may_clear) (remove_file p).
Proof.
  intros w. unfold remove_file.
  destruct (existsb (String.eqb p) (files w));
    (split; [now apply heap_kept_same | split; [discriminate | auto]]).
Qed.

Lemma preserves_clear (files_free : bool) :
  preserves (run_rel files_free true) (set_scenarios []).
Proof. intros w. split; [now apply heap_kept_same | split; auto]. Qed.

Lemma preserves_present (inp : inputs) (results : list nat) :
  preserves (run_rel (pdf_button inp) (clear_button inp)) (present inp results).
Proof.
  unfold present, pdf_button_handler, create_pdf_report, plot_zones.
  destruct (pdf_button inp), (clear_button inp);
    repeat first
      [ apply preserves_ret | apply preserves_raise | apply preserves_emit
      | apply preserves_create_file | apply preserves_remove_file
      | apply preserves_clear
      | apply preserves_column | apply preserves_external | apply preserves_DataFrame
      | apply preserves_lift
      | apply preserves_bind; [| intros ?] ].
Qed.

Lemma preserves_results_section (inp : inputs) :
  preserves (run_rel (pdf_button inp) (clear_button inp)) (results_section inp).
Proof.
  intros w. unfold results_section. unfold bind at 1. cbn [get_scenarios].
  destruct (session_scenarios w) as [|row rest]; [apply run_rel_refl|].
  apply (preserves_bind (pdf_button inp) (clear_button inp));
    [apply preserves_results_loop | intros results; apply preserves_present].
Qed.

Lemma submit_handler_stores (gazlar : list gas_row) (f : form) (gaz : gas_row)
    (w : world) :
  lookup_gas gazlar (gaz_adi f) = Ok gaz ->
  submit_handler gazlar f w = (Ok tt, submitted f gaz w).
Proof. intros E. unfold submit_handler. rewrite bind_lift, E. reflexivity. Qed.

Lemma submit_handler_rejects (gazlar : list gas_row) (f : form) (e : exn) (w : world) :
  lookup_gas gazlar (gaz_adi f) = Raise e ->
  submit_handler gazlar f w = (Raise e, w).
Proof. intros E. unfold submit_handler. rewrite bind_lift, E. reflexivity. Qed.

Lemma script_submitted (gazlar : list gas_row) (inp : inputs) (gaz : gas_row)
    (w : world) :
  submit inp = true ->
  lookup_gas gazlar (gaz_adi (widgets inp)) = Ok gaz ->
  script gazlar inp w = results_section inp (submitted (widgets inp) gaz w).
Proof.
  intros Hs E. unfold script. rewrite Hs. unfold bind at 1.
  now rewrite (submit_handler_stores gazlar _ gaz w E).
Qed.

Lemma script_rejected (gazlar : list gas_row) (inp : inputs) (e : exn) (w : world) :
  submit inp = true ->
  lookup_gas gazlar (gaz_adi (widgets inp)) = Raise e ->
  script gazlar inp w = (Raise e, w).
Proof.
  intros Hs E. unfold script. rewrite Hs. unfold bind at 1.
  now rewrite (submit_handler_rejects gazlar _ e w E).
Qed.

Lemma script_not_submitted (gazlar : list gas_row) (inp : inputs) (w : world) :
  submit inp = false -> script gazlar inp w = results_section inp w.
Proof. intros Hs. unfold script. rewrite Hs. reflexivity. Qed.

(** X8. What one run of the script can do to the stored state, from any
    world and with any inputs.  Every dict that existed is still there,
    unchanged.  The session list is what it was, or what it was with one new
    row at the end (only when the form was submitted), or empty (only when
    the clear button was pressed); an entry is never removed or reordered
    otherwise.  Without the PDF button no file is created or removed. *)
Theorem script_frame (gazlar : list gas_row) (inp : inputs) (w : world) :
  let w' := snd (script gazlar inp w) in
  heap_kept w w'
  /\ (pdf_button inp = false -> files w' = files w)
  /\ (session_scenarios w' = session_scenarios w
      \/ (submit inp = true
          /\ session_scenarios w' = session_scenarios w ++ [length (heap w)])
      \/ (clear_button inp = true /\ session_scenarios w' = [])).
Proof.
  intros w'. subst w'.
  destruct (submit inp) eqn:Hs.
  - destruct (lookup_gas gazlar (gaz_adi (widgets inp))) as [gaz|e] eqn:E.
    + rewrite (script_submitted gazlar inp gaz w Hs E).
      destruct (preserves_results_section inp (submitted (widgets inp) gaz w))
        as (Hk & Hf & Hsess).
      split; [|split].
      * eapply heap_kept_trans; [|exact Hk].
        exists [scenario_dict (widgets inp) gaz]. reflexivity.
      * exact Hf.
      * destruct Hsess as [Es|[Hc Es]]; [right; left; auto | right; right; auto].
    + rewrite (script_rejected gazlar inp e w Hs E).
      split; [apply heap_kept_refl | split; auto].
  - rewrite (script_not_submitted gazlar inp w Hs).
    destruct (preserves_results_section inp w) as (Hk & Hf & [Es|[Hc Es]]).
    + split; [exact Hk | split; [exact Hf | left; exact Es]].
    + split; [exact Hk | split; [exact Hf | right; right; auto]].
Qed.

Lemma script_frame_witness :
  let inp := sample_inputs true false false None in
  files (snd (script sample_gazlar inp sample_world)) = files sample_world.
Proof.
  intros inp.
  exact (proj1 (proj2 (script_frame sample_gazlar inp sample_world)) eq_refl).
Defined.

(** ** A run that displays the stored scenarios *)

Lemma frame_record_columns (fc : bool) (f : form) (gaz : gas_row) (w : world) :
  exists z0 z1 z2 D,
    zone_result_in_frame fc f gaz =
      [ ("Zone 0 Yarıçapı (m)", z0); ("Zone 1 Yarıçapı (m)", z1);
        ("Zone 2 Yarıçapı (m)", z2); ("Seyrelme Faktörü (D)", D) ]%string
    /\ column (scenario_dict f gaz ++ zone_result_in_frame fc f gaz)
         "Zone 0 Yarıçapı (m)" w = (Ok z0, w)
    /\ column (scenario_dict f gaz ++ zone_result_in_frame fc f gaz)
         "Zone 1 Yarıçapı (m)" w = (Ok z1, w)
    /\ column (scenario_dict f gaz ++ zone_result_in_frame fc f gaz)
         "Zone 2 Yarıçapı (m)" w = (Ok z2, w).
Proof. eexists _, _, _, _. repeat split; reflexivity. Qed.

Lemma present_shows (inp : inputs) (results : list nat) (w : world)
    (df : list dict) (fc : bool) (f0 : form) (gaz0 : gas_row) :
  DataFrame results w = (Ok df, w) ->
  (forall d, In d df -> frame_record d) ->
  df !! 0%nat = Some (scenario_dict f0 gaz0 ++ zone_result_in_frame fc f0 gaz0) ->
  pdf_button inp = false ->
  exists z0 z1 z2 D,
    zone_result_in_frame fc f0 gaz0 =
      [ ("Zone 0 Yarıçapı (m)", z0); ("Zone 1 Yarıçapı (m)", z1);
        ("Zone 2 Yarıçapı (m)", z2); ("Seyrelme Faktörü (D)", D) ]%string
    /\ present inp results w =
         (if clear_button inp then Raise RerunException else Ok tt,
          shown df z0 z1 z2 (clear_button inp) w).
Proof.
  intros Edf Hall Hfirst Hpdf.
  set (w1 := {| heap := heap w; session_scenarios := session_scenarios w;
                files := files w; ui := ui w ++ [EvDataframe df];
                calls := calls w |}).
  destruct (frame_record_columns fc f0 gaz0 w1) as (z0 & z1 & z2 & D & Ezr & C0 & C1 & C2).
  exists z0, z1, z2, D. split; [exact Ezr|].
  unfold present. unfold bind at 1. rewrite Edf.
  unfold bind at 1. cbn [emit]. fold w1.
  rewrite bind_lift, (iloc_frame_record df 0 _ Hall Hfirst).
  unfold bind at 1. rewrite C0.
  unfold bind at 1. rewrite C1.
  unfold bind at 1. rewrite C2.
  rewrite Hpdf. unfold shown.
  destruct (clear_button inp); cbn; rewrite <- app_assoc; reflexivity.
Qed.

Lemma results_section_shows (gazlar : list gas_row) (inp : inputs) (w : world)
    (row0 : nat) (rest : list nat) :
  session_ok gazlar w ->
  session_scenarios w = row0 :: rest ->
  pdf_button inp = false ->
  exists f0 gaz0 df z0 z1 z2 D w1,
    heap w !! row0 = Some (scenario_dict f0 gaz0)
    /\ zone_result_in_frame (float_zone0 w (session_scenarios w)) f0 gaz0 =
         [ ("Zone 0 Yarıçapı (m)", z0); ("Zone 1 Yarıçapı (m)", z1);
           ("Zone 2 Yarıçapı (m)", z2); ("Seyrelme Faktörü (D)", D) ]%string
    /\ length df = length (session_scenarios w)
    /\ (forall i row, session_scenarios w !! i = Some row ->
          exists f gaz,
            heap w !! row = Some (scenario_dict f gaz)
            /\ df !! i = Some (scenario_dict f gaz
                               ++ zone_result_in_frame
                                    (float_zone0 w (session_scenarios w)) f gaz))
    /\ heap_kept w w1
    /\ session_scenarios w1 = session_scenarios w
    /\ files w1 = files w /\ ui w1 = ui w
    /\ calls w1 = calls w ++ session_scenarios w
    /\ results_section inp w =
         (if clear_button inp then Raise RerunException else Ok tt,
          shown df z0 z1 z2 (clear_button inp) w1).
Proof.
  intros [Hs _] Erows Hpdf.
  destruct (results_loop_frame gazlar (session_scenarios w) w Hs)
    as (results & w1 & df & E & Edf & _ & Hdflen & Hk & Hscen & Hf & Hu & Hc
        & Hall & Hrec).
  destruct (Hrec 0%nat row0) as (f0 & gaz0 & m0 & H0 & _ & _ & Hfirst);
    [now rewrite Erows|].
  destruct (present_shows inp results w1 df _ f0 gaz0 Edf Hall Hfirst Hpdf)
    as (z0 & z1 & z2 & D & Ezr & Ep).
  exists f0, gaz0, df, z0, z1, z2, D, w1.
  split; [exact H0|]. split; [exact Ezr|]. split; [exact Hdflen|].
  split.
  { intros i row Hrow.
    destruct (Hrec i row Hrow) as (f & gaz & m & Hr & _ & _ & Hd).
    exists f, gaz. split; [exact Hr | exact Hd]. }
  split; [exact Hk|]. split; [exact Hscen|]. split; [exact Hf|].
  split; [exact Hu|]. split; [exact Hc|].
  unfold results_section. unfold bind at 1. cbn [get_scenarios].
  rewrite Erows in E |- *. unfold bind at 1. rewrite E. exact Ep.
Qed.

(** X9. A run on a reachable world with stored scenarios and no button
    pressed succeeds.  It calls the calculator once for every stored
    scenario, in list order (nothing is cached), and shows a frame with one
    row per scenario: the scenario followed by its results, where the [0] of
    zone 0 is [0.0] as soon as one stored scenario is continuous.  The
    diagram is drawn with the radii of the first row of that frame.  The
    session list and the files are left as they were. *)
Theorem display_recomputes_every_scenario
    (gazlar : list gas_row) (inp : inputs) (w : world) (row0 : nat) (rest : list nat) :
  reachable gazlar w ->
  session_scenarios w = row0 :: rest ->
  submit inp = false -> pdf_button inp = false -> clear_button inp = false ->
  exists f0 gaz0 df z0 z1 z2 D w',
    script gazlar inp w = (Ok tt, w')
    /\ heap w !! row0 = Some (scenario_dict f0 gaz0)
    /\ zone_result_in_frame (float_zone0 w (session_scenarios w)) f0 gaz0 =
         [ ("Zone 0 Yarıçapı (m)", z0); ("Zone 1 Yarıçapı (m)", z1);
           ("Zone 2 Yarıçapı (m)", z2); ("Seyrelme Faktörü (D)", D) ]%string
    /\ ui w' = ui w ++ [EvDataframe df; EvPlot z0 z1 z2]
    /\ length df = length (session_scenarios w)
    /\ (forall i row, session_scenarios w !! i = Some row ->
          exists f gaz,
            heap w !! row = Some (scenario_dict f gaz)
            /\ df !! i = Some (scenario_dict f gaz
                               ++ zone_result_in_frame
                                    (float_zone0 w (session_scenarios w)) f gaz))
    /\ calls w' = calls w ++ session_scenarios w
    /\ session_scenarios w' = session_scenarios w
    /\ files w' = files w.
Proof.
  intros Hr Erows Hs Hpdf Hclear.
  destruct (results_section_shows gazlar inp w row0 rest (reachable_ok gazlar w Hr)
              Erows Hpdf)
    as (f0 & gaz0 & df & z0 & z1 & z2 & D & w1 & H0 & Ezr & Hlen & Hdf & Hk & Hscen
        & Hf & Hu & Hc & E).
  rewrite Hclear in E.
  exists f0, gaz0, df, z0, z1, z2, D, (shown df z0 z1 z2 false w1).
  rewrite (script_not_submitted gazlar inp w Hs).
  split; [exact E|]. split; [exact H0|]. split; [exact Ezr|].
  cbn [shown ui calls session_scenarios files].
  split; [now rewrite Hu|]. split; [exact Hlen|]. split; [exact Hdf|].
  split; [exact Hc|]. split; [exact Hscen | exact Hf].
Qed.

Lemma display_recomputes_every_scenario_witness :
  exists df z0 z1 z2 w',
    script sample_gazlar (sample_inputs false false false None) sample_world
      = (Ok tt, w')
    /\ ui w' = ui sample_world ++ [EvDataframe df; EvPlot z0 z1 z2]
    /\ calls w' = calls sample_world ++ [0%nat].
Proof.
  assert (Hr : reachable sample_gazlar sample_world).
  { exact (reach_run sample_gazlar initial_world
             (sample_inputs true false false None)
             (reach_init sample_gazlar) eq_refl). }
  destruct (display_recomputes_every_scenario sample_gazlar
              (sample_inputs false false false None) sample_world 0%nat []
              Hr eq_refl eq_refl eq_refl eq_refl)
    as (f0 & gaz0 & df & z0 & z1 & z2 & D & w' & E & _ & _ & Hu & _ & _ & Hc & _).
  exists df, z0, z1, z2, w'. repeat split; assumption.
Defined.

Lemma empty_session_run (gazlar : list gas_row) (inp : inputs) (w : world) :
  session_scenarios w = [] -> submit inp = false ->
  script gazlar inp w = (Ok tt, w).
Proof.
  intros E Hs. rewrite (script_not_submitted gazlar inp w Hs).
  unfold results_section. unfold bind at 1. cbn [get_scenarios]. now rewrite E.
Qed.

(** X10. Pressing the clear button on a reachable world with stored
    scenarios: the run still calls the calculator on every stored scenario
    and shows the frame of their records and the diagram of the first one,
    exactly as a run without the button does; then it empties the session
    list and stops with the rerun signal.  No dict is lost.  From then on a
    run without a new submission computes nothing, shows nothing and changes
    nothing, whichever buttons its inputs carry. *)
Theorem clear_empties_the_session
    (gazlar : list gas_row) (inp : inputs) (w : world) (row0 : nat) (rest : list nat) :
  reachable gazlar w ->
  session_scenarios w = row0 :: rest ->
  submit inp = false -> pdf_button inp = false -> clear_button inp = true ->
  exists f0 gaz0 df z0 z1 z2 D w',
    script gazlar inp w = (Raise RerunException, w')
    /\ heap w !! row0 = Some (scenario_dict f0 gaz0)
    /\ zone_result_in_frame (float_zone0 w (session_scenarios w)) f0 gaz0 =
         [ ("Zone 0 Yarıçapı (m)", z0); ("Zone 1 Yarıçapı (m)", z1);
           ("Zone 2 Yarıçapı (m)", z2); ("Seyrelme Faktörü (D)", D) ]%string
    /\ ui w' = ui w ++ [EvDataframe df; EvPlot z0 z1 z2]
    /\ length df = length (session_scenarios w)
    /\ (forall i row, session_scenarios w !! i = Some row ->
          exists f gaz,
            heap w !! row = Some (scenario_dict f gaz)
            /\ df !! i = Some (scenario_dict f gaz
                               ++ zone_result_in_frame
                                    (float_zone0 w (session_scenarios w)) f gaz))
    /\ calls w' = calls w ++ session_scenarios w
    /\ files w' = files w
    /\ session_scenarios w' = []
    /\ heap_kept w w'
    /\ forall inp', submit inp' = false ->
                    script gazlar inp' w' = (Ok tt, w').
Proof.
  intros Hr Erows Hs Hpdf Hclear.
  destruct (results_section_shows gazlar inp w row0 rest (reachable_ok gazlar w Hr)
              Erows Hpdf)
    as (f0 & gaz0 & df & z0 & z1 & z2 & D & w1 & H0 & Ezr & Hlen & Hdf & Hk & _
        & Hf & Hu & Hc & E).
  rewrite Hclear in E.
  exists f0, gaz0, df, z0, z1, z2, D, (shown df z0 z1 z2 true w1).
  rewrite (script_not_submitted gazlar inp w Hs).
  split; [exact E|]. split; [exact H0|]. split; [exact Ezr|].
  cbn [shown ui calls session_scenarios files].
  split; [now rewrite Hu|]. split; [exact Hlen|]. split; [exact Hdf|].
  split; [exact Hc|]. split; [exact Hf|]. split; [reflexivity|].
  split; [destruct Hk as [new Hk]; exists new; exact Hk|].
  intros inp' Hs'. now apply empty_session_run.
Qed.

Lemma clear_empties_the_session_witness :
  exists df z0 z1 z2 w',
    script sample_gazlar (sample_inputs false false true None) sample_world
      = (Raise RerunException, w')
    /\ ui w' = ui sample_world ++ [EvDataframe df; EvPlot z0 z1 z2]
    /\ session_scenarios w' = []
    /\ script sample_gazlar (sample_inputs false true true None) w' = (Ok tt, w').
Proof.
  assert (Hr : reachable sample_gazlar sample_world).
  { exact (reach_run sample_gazlar initial_world
             (sample_inputs true false false None)
             (reach_init sample_gazlar) eq_refl). }
  destruct (clear_empties_the_session sample_gazlar
              (sample_inputs false false true None) sample_world 0%nat []
              Hr eq_refl eq_refl eq_refl eq_refl)
    as (f0 & gaz0 & df & z0 & z1 & z2 & D & w' & E & _ & _ & Hu & _ & _ & _ & _
        & Hs & _ & Hnext).
  exists df, z0, z1, z2, w'.
  split; [exact E|]. split; [exact Hu|]. split; [exact Hs|].
  apply Hnext. reflexivity.
Defined.

(** ** Looking up the gas and storing the form *)

Lemma lookup_gas_cons (g : gas_row) (gazlar : list gas_row) (name : string) :
  lookup_gas (g :: gazlar) name =
    if String.eqb (isim g) name then Ok g else lookup_gas gazlar name.
Proof.
  unfold lookup_gas. rewrite filter_cons.
  destruct (String.eqb (isim g) name) eqn:E.
  - destruct (decide (Is_true true)) as [_|H]; [reflexivity | destruct H; exact I].
  - destruct (decide (Is_true false)) as [[]|_]. reflexivity.
Qed.

(** X11. The lookup returns the first row of the table that carries the
    name, also when several rows do, and raises [IndexError], nothing else,
    exactly when no row carries it. *)
Theorem lookup_gas_first_match (gazlar : list gas_row) (name : string) :
  (forall gaz,
     lookup_gas gazlar name = Ok gaz <->
     exists pre post,
       gazlar = pre ++ gaz :: post
       /\ isim gaz = name
       /\ Forall (fun g => isim g <> name) pre)
  /\ (forall e,
        lookup_gas gazlar name = Raise e <->
        e = IndexError /\ Forall (fun g => isim g <> name) gazlar).
Proof.
  induction gazlar as [|g rest [IHok IHerr]].
  - split.
    + intros gaz. split; [discriminate|].
      intros (pre & post & H & _). destruct pre; discriminate H.
    + intros e. split.
      * intros [= <-]. split; [reflexivity | constructor].
      * intros [-> _]. reflexivity.
  - split.
    + intros gaz. rewrite lookup_gas_cons.
      destruct (String.eqb_spec (isim g) name) as [Heq|Hne].
      * split.
        -- intros [= <-]. exists [], rest. repeat split; [exact Heq | constructor].
        -- intros (pre & post & H & Hn & Hpre). destruct pre as [|g' pre].
           ++ now injection H as ->.
           ++ injection H as -> _. apply Forall_cons in Hpre as [Hg _]. contradiction.
      * rewrite IHok. split.
        -- intros (pre & post & -> & Hn & Hpre). exists (g :: pre), post.
           repeat split; [exact Hn | constructor; assumption].
        -- intros (pre & post & H & Hn & Hpre). destruct pre as [|g' pre].
           ++ injection H as <- _. contradiction.
           ++ injection H as -> ->. apply Forall_cons in Hpre as [_ Hpre].
              exists pre, post. auto.
    + intros e. rewrite lookup_gas_cons.
      destruct (String.eqb_spec (isim g) name) as [Heq|Hne].
      * split; [discriminate|].
        intros [_ H]. apply Forall_cons in H as [H _]. contradiction.
      * rewrite IHerr. split.
        -- intros [-> H]. split; [reflexivity | constructor; assumption].
        -- intros [-> H]. apply Forall_cons in H as [_ H]. auto.
Qed.

Lemma lookup_gas_first_match_witness :
  let twice := [ {| isim := "Metan"; grup := "IIA"; LEL := F.of_Z 5 |};
                 {| isim := "Metan"; grup := "IIB"; LEL := F.of_Z 4 |} ]%string in
  lookup_gas twice "Metan" = Ok {| isim := "Metan"; grup := "IIA"; LEL := F.of_Z 5 |}
  /\ lookup_gas twice "Ksenon" = Raise IndexError.
Proof.
  intros twice. split.
  - apply (proj1 (lookup_gas_first_match twice "Metan")).
    exists [], [ {| isim := "Metan"; grup := "IIB"; LEL := F.of_Z 4 |}%string ].
    repeat split. constructor.
  - apply (proj2 (lookup_gas_first_match twice "Ksenon")).
    split; [reflexivity|]. repeat constructor; discriminate.
Defined.

Lemma scenario_dict_inj (f f' : form) (gaz gaz' : gas_row) (fc : bool) :
  scenario_dict f gaz = scenario_dict f' gaz' ->
  zone_result_in_frame fc f gaz = zone_result_in_frame fc f' gaz'.
Proof.
  rewrite !scenario_dict_items. intros H.
  injection H; intros.
  unfold zone_result_in_frame, corrected_radius, dilution.
  repeat match goal with
         | E : _ = _ |- _ => try rewrite E; clear E
         end.
  reflexivity.
Qed.

(** Storing a scenario makes the zone 0 column a column of floats when it was
    one already or when the new scenario is continuous. *)
Lemma float_zone0_submitted (gazlar : list gas_row) (f : form) (gaz : gas_row)
    (w : world) :
  session_ok gazlar w ->
  float_zone0 (submitted f gaz w) (session_scenarios (submitted f gaz w))
  = float_zone0 w (session_scenarios w) || String.eqb (leak_type f) "Sürekli".
Proof.
  intros [Hs _]. unfold float_zone0. cbn [submitted session_scenarios].
  rewrite existsb_app. f_equal.
  - apply existsb_pointwise; [reflexivity|].
    intros i a a' Ha Ha'. rewrite Ha in Ha'. injection Ha' as <-.
    destruct (Hs a) as (f0 & gaz0 & H0 & _).
    { apply list_elem_of_In. eapply list_elem_of_lookup_2. exact Ha. }
    unfold continuous_at. cbn [submitted heap].
    now rewrite (lookup_app_l_Some _ _ _ _ H0), H0.
  - cbn [existsb]. unfold continuous_at. cbn [submitted heap].
    rewrite list_lookup_middle by reflexivity.
    rewrite scenario_continuous. apply orb_false_r.
Qed.

(** X12. A scenario that is submitted is shown by the same run.  On a
    reachable world, with widget values in range and a gas of the table
    selected, the run succeeds, stores the new row at the end of the session
    list without touching the earlier ones, and the last row of the frame it
    shows is the new scenario followed by its computed results (the [0] of
    zone 0 as [0.0] when the new or an earlier scenario is continuous). *)
Theorem submitted_scenario_is_shown
    (gazlar : list gas_row) (inp : inputs) (gaz : gas_row) (w : world) :
  reachable gazlar w ->
  form_in_range (widgets inp) = true ->
  submit inp = true ->
  lookup_gas gazlar (gaz_adi (widgets inp)) = Ok gaz ->
  pdf_button inp = false -> clear_button inp = false ->
  exists df z0 z1 z2 w',
    script gazlar inp w = (Ok tt, w')
    /\ session_scenarios w' = session_scenarios w ++ [length (heap w)]
    /\ heap w' !! length (heap w) = Some (scenario_dict (widgets inp) gaz)
    /\ (forall a d, heap w !! a = Some d -> heap w' !! a = Some d)
    /\ length df = S (length (session_scenarios w))
    /\ df !! length (session_scenarios w)
       = Some (scenario_dict (widgets inp) gaz
               ++ zone_result_in_frame
                    (float_zone0 w (session_scenarios w)
                     || String.eqb (leak_type (widgets inp)) "Sürekli")
                    (widgets inp) gaz)
    /\ ui w' = ui w ++ [ EvSuccess (scenario_name (widgets inp) ++ " eklendi!")%string;
                         EvDataframe df; EvPlot z0 z1 z2 ].
Proof.
  intros Hr Hrange Hs Hgas Hpdf Hclear.
  pose proof (reachable_ok gazlar w Hr) as Hok0.
  pose proof (submit_handler_ok gazlar (widgets inp) w Hok0 Hrange) as Hok.
  rewrite (submit_handler_stores gazlar _ gaz w Hgas) in Hok. cbn [snd] in Hok.
  pose proof (float_zone0_submitted gazlar (widgets inp) gaz w Hok0) as Hfc.
  set (w1 := submitted (widgets inp) gaz w) in *.
  assert (Erows : exists row0 rest, session_scenarios w1 = row0 :: rest).
  { subst w1. cbn [submitted session_scenarios].
    destruct (session_scenarios w) as [|r l]; cbn; eauto. }
  destruct Erows as (row0 & rest & Erows).
  destruct (results_section_shows gazlar inp w1 row0 rest Hok Erows Hpdf)
    as (f0 & gaz0 & df & z0 & z1 & z2 & D & w2 & _ & _ & Hlen & Hdf & Hk & Hscen
        & _ & Hu & _ & E).
  rewrite Hclear in E.
  exists df, z0, z1, z2, (shown df z0 z1 z2 false w2).
  rewrite (script_submitted gazlar inp gaz w Hs Hgas). fold w1.
  assert (Hnew : heap w1 !! length (heap w) = Some (scenario_dict (widgets inp) gaz))
    by (subst w1; cbn [submitted heap]; apply list_lookup_middle; reflexivity).
  split; [exact E|]. cbn [shown session_scenarios heap ui].
  split; [rewrite Hscen; reflexivity|].
  split; [apply (heap_kept_lookup w1 w2 _ _ Hk Hnew)|].
  split.
  { intros a d Ha. apply (heap_kept_lookup w1 w2 _ _ Hk).
    subst w1. cbn [submitted heap]. now apply lookup_app_l_Some. }
  split.
  { rewrite Hlen. subst w1. cbn [submitted session_scenarios].
    rewrite length_app. cbn. lia. }
  split.
  { destruct (Hdf (length (session_scenarios w)) (length (heap w)))
      as (f & gaz' & Hrow & Hrec).
    { subst w1. cbn [submitted session_scenarios].
      apply list_lookup_middle. reflexivity. }
    rewrite Hrec, Hfc. f_equal.
    rewrite Hnew in Hrow.
    assert (Es : scenario_dict (widgets inp) gaz = scenario_dict f gaz').
    { exact (f_equal (fun o => match o with Some d => d | None => [] end) Hrow). }
    rewrite <- Es. f_equal. symmetry. now apply scenario_dict_inj. }
  rewrite Hu. subst w1. cbn [submitted ui]. now rewrite <- app_assoc.
Qed.

Lemma submitted_scenario_is_shown_witness :
  let inp := {| widgets := with_leak_type "Birincil" sample_form; submit := true;
                pdf_button := false; clear_button := false;
                env := {| tmp_name := "/tmp/tmpk3x1.pdf"; fail_at := None |} |}%string in
  exists df z0 z1 z2 w',
    script sample_gazlar inp sample_world = (Ok tt, w')
    /\ session_scenarios w' = [0%nat; 3%nat]
    /\ length df = 2%nat
    /\ df !! 1%nat
       = Some (scenario_dict (widgets inp) sample_gas
               ++ zone_result_in_frame true (widgets inp) sample_gas)
    /\ dict_get (zone_result_in_frame true (widgets inp) sample_gas)
         "Zone 0 Yarıçapı (m)" = Some (VFloat F.zero)
    /\ ui w' = ui sample_world
               ++ [ EvSuccess "Senaryo 1 eklendi!"; EvDataframe df; EvPlot z0 z1 z2 ].
Proof.
  intros inp.
  assert (Hr : reachable sample_gazlar sample_world).
  { exact (reach_run sample_gazlar initial_world
             (sample_inputs true false false None)
             (reach_init sample_gazlar) eq_refl). }
  destruct (submitted_scenario_is_shown sample_gazlar inp sample_gas sample_world
              Hr eq_refl eq_refl eq_refl eq_refl eq_refl)
    as (df & z0 & z1 & z2 & w' & E & Hs & _ & _ & Hlen & Hlast & Hu).
  exists df, z0, z1, z2, w'.
  split; [exact E|]. split; [exact Hs|]. split; [exact Hlen|].
  split; [exact Hlast|]. split; [reflexivity | exact Hu].
Defined.

(** ** The PDF download *)

(** X13. The download is offered exactly when no stage of the PDF export
    fails: then the handler returns normally, also if a file of that name
    was already there, and shows one download of the temporary path.  When a
    stage fails nothing is shown.  In neither case does the handler touch a
    dict, the session list or the record of calculator calls. *)
Theorem download_only_on_success (env : environment) (df : list dict) (w : world) :
  let r := pdf_button_handler env df w in
  heap (snd r) = heap w
  /\ session_scenarios (snd r) = session_scenarios w
  /\ calls (snd r) = calls w
  /\ (fail_at env = None ->
      fst r = Ok tt /\ ui (snd r) = ui w ++ [EvDownload (tmp_name env)])
  /\ (forall st, fail_at env = Some st ->
      (exists e, fst r = Raise e) /\ ui (snd r) = ui w).
Proof.
  intros r. subst r.
  unfold pdf_button_handler, create_pdf_report, external.
  destruct (fail_at env) as [[]|].
  1-5: cbn; do 3 (split; [reflexivity|]); (split; [discriminate|]);
       intros st _; (split; [eexists; reflexivity | reflexivity]).
  cbn [bind ret raise pdf_stage_eqb create_file emit fst snd].
  unfold bind, remove_file. cbn [create_file emit ret files existsb].
  rewrite String.eqb_refl. cbn.
  do 3 (split; [reflexivity|]). split; [intros _; split; reflexivity|].
  intros st H. discriminate H.
Qed.

Lemma download_only_on_success_witness :
  let env := {| tmp_name := "/tmp/tmpk3x1.pdf"; fail_at := None |}%string in
  fst (pdf_button_handler env [] sample_world) = Ok tt
  /\ ui (snd (pdf_button_handler env [] sample_world))
     = ui sample_world ++ [EvDownload "/tmp/tmpk3x1.pdf"].
Proof.
  intros env.
  exact (proj1 (proj2 (proj2 (proj2 (download_only_on_success env [] sample_world))))
           eq_refl).
Defined.



(** ** The diagram of a scenario *)

Lemma ltb_implies_leb (x y : F.float) : (x <? y)%F = true -> (x <=? y)%F = true.
Proof.
  unfold F.ltb, F.leb, SFltb, SFleb.
  destruct (SFcompare x y) as [[]|]; congruence.
Qed.

Lemma diagram_facts (base : F.float) (iic iib lel_low small hot high_p : bool) :
  In base [Lit.f0_5; Lit.f1_0; Lit.f3_0; Lit.f5_0; Lit.f8_0] ->
  let R := correct base iic iib lel_low small hot high_p in
  (F.of_Z 0 <? F.round (R * Lit.f0_3)%F 2)%F = true
  /\ (F.of_Z 0 <? F.round (R * Lit.f0_7)%F 2)%F = true
  /\ (F.of_Z 0 <? F.round R 2)%F = true
  /\ (F.round (R * Lit.f0_3)%F 2 <=? F.round (R * Lit.f0_7)%F 2)%F = true
  /\ (F.round (R * Lit.f0_7)%F 2 <=? F.round R 2)%F = true
  /\ (F.round R 2 <? axis_top R)%F = true
  /\ SFsub F.prec F.emax (SFopp (F.round R 2)) (F.of_Z 1) = SFopp (axis_top R).
Proof.
  intros [<-|[<-|[<-|[<-|[<-|[]]]]]];
    destruct iic, iib, lel_low, small, hot, high_p; vm_compute; repeat split.
Qed.

(** X14. The diagram drawn for the results of a scenario, as a row of the
    frame holds them.  The circles for zone 2 (gold) and zone 1 (orange) are
    always added, in that order, the larger first; the red circle of zone 0
    comes last and only for the leak type "Sürekli", whether the zero of
    another leak type arrives as [0] or as [0.0].  Both axes run from
    [-(zone2 + 1)] to [zone2 + 1], so every circle lies strictly inside the
    plotted square. *)
Theorem diagram_of_a_scenario (f : form) (gaz : gas_row) (float_column : bool)
    (z0 z1 z2 D : value) :
  zone_result_in_frame float_column f gaz =
    [ ("Zone 0 Yarıçapı (m)", z0); ("Zone 1 Yarıçapı (m)", z1);
      ("Zone 2 Yarıçapı (m)", z2); ("Seyrelme Faktörü (D)", D) ]%string ->
  let top := axis_top (corrected_radius f gaz) in
  zone_figure z0 z1 z2 =
    Ok {| artists :=
            {| circle_radius := z2; circle_color := "#FFD700";
               circle_label := "Zone 2" |}
            :: {| circle_radius := z1; circle_color := "#FF8C00";
                  circle_label := "Zone 1" |}
            :: (if String.eqb (leak_type f) "Sürekli"
                then [ {| circle_radius := z0; circle_color := "#FF0000";
                          circle_label := "Zone 0" |} ]
                else []);
          xlim := (VFloat (SFopp top), VFloat top);
          ylim := (VFloat (SFopp top), VFloat top) |}
  /\ value_leb z1 z2 = true
  /\ value_leb z0 z1 = true
  /\ py_lt z2 (VFloat top) = Ok true.
Proof.
  unfold zone_result_in_frame. intros H. injection H as <- <- <- <-.
  destruct (diagram_facts (get_zone_radius (dilution f))
              (String.eqb (grup gaz) "IIC") (String.eqb (grup gaz) "IIB")
              (LEL gaz <? F.of_Z 2)%F (volume f <? F.of_Z 10)%F
              (F.of_Z 40 <? temp f)%F (Lit.f1_2 <? pressure f)%F
              (get_zone_radius_cases (dilution f)))
    as (P0 & P1 & P2 & L01 & L12 & Ltop & Elo).
  fold (corrected_radius f gaz) in P0, P1, P2, L01, L12, Ltop, Elo.
  unfold zone_figure, add_circles, and_then, py_gt, py_neg, py_sub, py_add, value_leb.
  cbn [py_lt py_le to_float].
  rewrite P1, P2. fold (axis_top (corrected_radius f gaz)). rewrite Elo.
  destruct (String.eqb (leak_type f) "Sürekli"); [|destruct float_column].
  - cbn [py_lt py_le to_float]. rewrite P0. cbn [app].
    split; [reflexivity|]. split; [exact L12|]. split; [exact L01|].
    now rewrite Ltop.
  - cbn [py_lt py_le to_float app].
    change (F.of_Z 0 <? F.zero)%F with false. cbn [app].
    split; [reflexivity|]. split; [exact L12|].
    split; [apply ltb_implies_leb; exact P1|].
    now rewrite Ltop.
  - cbn [py_lt py_le to_float Z.ltb Z.compare app].
    split; [reflexivity|]. split; [exact L12|].
    split; [apply ltb_implies_leb; exact P1|].
    now rewrite Ltop.
Qed.

Lemma diagram_of_a_scenario_witness :
  exists top,
    zone_figure (VFloat (F.dec 30 100)) (VFloat (F.dec 70 100)) (VFloat (F.dec 100 100))
    = Ok {| artists :=
              [ {| circle_radius := VFloat (F.dec 100 100); circle_color := "#FFD700";
                   circle_label := "Zone 2" |};
                {| circle_radius := VFloat (F.dec 70 100); circle_color := "#FF8C00";
                   circle_label := "Zone 1" |};
                {| circle_radius := VFloat (F.dec 30 100); circle_color := "#FF0000";
                   circle_label := "Zone 0" |} ];
            xlim := (VFloat (SFopp top), VFloat top);
            ylim := (VFloat (SFopp top), VFloat top) |}
    /\ top = F.of_Z 2.
Proof.
  exists (axis_top (corrected_radius sample_form sample_gas)).
  split; [|reflexivity].
  exact (proj1 (diagram_of_a_scenario sample_form sample_gas false _ _ _ _ eq_refl)).
Defined.

(** ** The report of the stored scenarios *)

Lemma section_of_frame_record (fc : bool) (f : form) (gaz : gas_row) :
  report_section record_columns_list
    (scenario_dict f gaz ++ zone_result_in_frame fc f gaz)
  = Ok (section_of_record (scenario_dict f gaz ++ zone_result_in_frame fc f gaz)).
Proof. reflexivity. Qed.

Lemma report_rows_records (rows : list dict) :
  (forall d, In d rows -> frame_record d) ->
  report_rows record_columns_list rows = Ok (concat (map section_of_record rows)).
Proof.
  induction rows as [|d rest IH]; intros Hall; [reflexivity|].
  cbn [report_rows map concat].
  destruct (Hall d (or_introl eq_refl)) as (fc & f & gaz & ->).
  rewrite section_of_frame_record. cbn [and_then].
  rewrite IH by (intros d' Hd'; apply Hall; right; exact Hd').
  reflexivity.
Qed.

(** X15. The report of a frame of scenario records.  After the title, every
    scenario gets its own section, in the order of the frame: a heading with
    the scenario name, then one line for each of the sixteen other fields,
    inputs first and results last, labelled with the field name and carrying
    the entry of that row.  The name itself is not repeated among the lines;
    no field is left out. *)
Theorem report_lists_every_field (df : list dict) :
  (forall d, In d df -> frame_record d) ->
  report_ops df = Ok (report_header ++ concat (map section_of_record df))
  /\ (forall d, In d df ->
        length (section_of_record d) = 21%nat
        /\ map fst (tail d) = tail record_columns_list
        /\ forall k, In k (tail record_columns_list) ->
             exists v, dict_get d k = Some v
                       /\ In (OpCell 0 8 (String.append k ": ") (Some v) 1 EmptyString)
                             (section_of_record d)).
Proof.
  intros Hall. split.
  - unfold report_ops. rewrite (iterrows_frame_records df Hall).
    destruct df as [|d0 rest]; [reflexivity|].
    rewrite (columns_of_keys (d0 :: rest))
      by (try (intros d Hd; apply frame_record_keys, Hall, Hd); discriminate).
    now rewrite (report_rows_records (d0 :: rest) Hall).
  - intros d Hd. destruct (Hall d Hd) as (fc & f & gaz & ->).
    split; [reflexivity|]. split; [reflexivity|].
    intros k Hk.
    set (d := scenario_dict f gaz ++ zone_result_in_frame fc f gaz).
    assert (Hin : forall k v, In (k, v) (tail d) ->
              In (OpCell 0 8 (String.append k ": ") (Some v) 1 EmptyString)
                 (section_of_record d)).
    { intros k' v' H. unfold section_of_record.
      apply in_or_app. right. apply in_or_app. left.
      apply (in_map (fun kv => OpCell 0 8 (String.append (fst kv) ": ")
                                 (Some (snd kv)) 1 EmptyString) _ _ H). }
    unfold record_columns_list, tail in Hk.
    repeat (destruct Hk as [<-|Hk];
            [eexists; split; [reflexivity|]; apply Hin;
             subst d; rewrite scenario_dict_items;
             unfold zone_result_in_frame, tail, app; cbn [In]; tauto|]).
    destruct Hk.
Qed.

Lemma report_lists_every_field_witness :
  report_ops [record_of sample_form sample_gas]
  = Ok (report_header ++ section_of_record (record_of sample_form sample_gas)).
Proof.
  destruct (report_lists_every_field [record_of sample_form sample_gas]) as [E _].
  - intros d [<-|[]]. apply record_is_frame_record.
  - rewrite E. cbn [map concat]. now rewrite app_nil_r.
Defined.
